(** * Krishi Mitra advisory server (src/front.js): query pipeline, escalation
      policy and learning loop, embedded as Rocq functions.

    Conventions of the embedding.
    - A JavaScript string is a [string] holding its UTF-8 bytes.  Substring
      search and replacement on well-formed text give the same answers on
      UTF-8 bytes as on UTF-16 code units (both encodings are
      self-synchronising).
    - A JavaScript number that carries a confidence is the rational that its
      decimal literal denotes ([Q]); the program only compares such numbers
      with the literals 0.4, 0.6 and 0.8.  The result of a division is a
      [jsnum], which adds NaN and the infinities.
    - [undefined] and [null] are kept apart from strings ([jstr]) because the
      program tests truthiness and prints them in template literals.
    - An exception is the [Throw] result of the [outcome] monad.
    - The template literals of src/front.js are read as template literals
      also where the listing shows them without their back quotes. *)

From Stdlib Require Import QArith ZArith String Ascii List Bool.
From stdpp Require Import gmap strings list fin_maps pretty.
Import ListNotations.

Open Scope string_scope.
Open Scope Z_scope.
Open Scope list_scope.

(** ** JavaScript values *)

Module JS.

(** A value that is a string, [null] or [undefined]. *)
Inductive jstr : Type :=
  | JUndefined
  | JNull
  | JStr (s : string).

(** Truthiness: the empty string, [null] and [undefined] are falsy. *)
Definition truthy (v : jstr) : bool :=
  match v with
  | JStr s => negb (String.eqb s "")
  | _ => false
  end.

(** [a || b]. *)
Definition por (a b : jstr) : jstr := if truthy a then a else b.

(** String conversion, as in a template literal or a property key. *)
Definition toText (v : jstr) : string :=
  match v with
  | JUndefined => "undefined"
  | JNull => "null"
  | JStr s => s
  end.

(** [text.includes(pat)]. *)
Fixpoint includes (text pat : string) : bool :=
  if String.prefix pat text then true
  else match text with
       | EmptyString => false
       | String _ rest => includes rest pat
       end.

Fixpoint dropChars (n : nat) (s : string) : string :=
  match n, s with
  | S k, String _ rest => dropChars k rest
  | _, _ => s
  end.

(** [text.replace(pat, rep)] for a string pattern: the first occurrence only.
    No replacement text of the program contains a dollar sign. *)
Fixpoint replace (text pat rep : string) : string :=
  if String.prefix pat text then rep +:+ dropChars (String.length pat) text
  else match text with
       | EmptyString => EmptyString
       | String c rest => String c (replace rest pat rep)
       end.

Definition lowerChar (c : ascii) : ascii :=
  let n := nat_of_ascii c in
  if Nat.leb 65 n && Nat.leb n 90 then ascii_of_nat (n + 32) else c.

(** [s.toLowerCase()].  Bytes outside A-Z are kept, which is what JavaScript
    does on ASCII text and on scripts without letter case such as Malayalam.
    JavaScript also maps cased letters outside ASCII (U+212A KELVIN SIGN
    becomes k); a statement whose truth depends on lower-casing such text is
    made for ASCII text only ([isAscii]). *)
Fixpoint toLowerCase (s : string) : string :=
  match s with
  | EmptyString => EmptyString
  | String c rest => String (lowerChar c) (toLowerCase rest)
  end.

(** The text holds ASCII characters only. *)
Fixpoint isAscii (s : string) : bool :=
  match s with
  | EmptyString => true
  | String c rest => Nat.ltb (nat_of_ascii c) 128 && isAscii rest
  end.

(** [parts.join(", ")]. *)
Fixpoint join (sep : string) (parts : list string) : string :=
  match parts with
  | [] => EmptyString
  | [p] => p
  | p :: rest => p +:+ sep +:+ join sep rest
  end.

(** Reading a property of an object literal: an own property, a member
    inherited from [Object.prototype] (a truthy function or object, known
    here by the text it prints as), or nothing ([undefined]). *)
Inductive property (A : Type) : Type :=
  | Own (a : A)
  | Inherited (text : string)
  | Absent.
Arguments Own {A} a.
Arguments Inherited {A} text.
Arguments Absent {A}.

Definition prototypeFunctions : list string :=
  [ "__defineGetter__"; "__defineSetter__"; "hasOwnProperty";
    "__lookupGetter__"; "__lookupSetter__"; "isPrototypeOf";
    "propertyIsEnumerable"; "toString"; "valueOf"; "toLocaleString" ].

Definition objectPrototype (key : string) : option string :=
  if String.eqb key "constructor" then Some "function Object() { [native code] }"
  else if String.eqb key "__proto__" then Some "[object Object]"
  else if existsb (String.eqb key) prototypeFunctions
       then Some ("function " +:+ key +:+ "() { [native code] }")
       else None.

Fixpoint ownProperty {A : Type} (obj : list (string * A)) (key : string) : option A :=
  match obj with
  | [] => None
  | (k, v) :: rest => if String.eqb k key then Some v else ownProperty rest key
  end.

(** [obj[key]]. *)
Definition getProp {A : Type} (obj : list (string * A)) (key : string) : property A :=
  match ownProperty obj key with
  | Some a => Own a
  | None =>
      match objectPrototype key with
      | Some text => Inherited text
      | None => Absent
      end
  end.

(** A value that, when it is a string, holds ASCII characters only. *)
Definition isAsciiValue (v : jstr) : bool :=
  match v with
  | JStr s => isAscii s
  | _ => true
  end.

(** Results of code that may raise. *)
Inductive outcome (A : Type) : Type :=
  | Ok (a : A)
  | Throw (message : string).
Arguments Ok {A} a.
Arguments Throw {A} message.

#[global] Instance outcome_bind : MBind outcome :=
  fun A B k m =>
    match m with
    | Ok a => k a
    | Throw e => Throw e
    end.

(** [x < y] on confidences. *)
Definition lt (x y : Q) : bool := negb (Qle_bool y x).

End JS.
Import JS.

(** ** Knowledge base *)

Record Seasons := { plant : string; harvest : string }.

Record CropInfo := {
  commonDiseases : list string;
  pests : list string;
  seasons : Seasons;
  pesticides : list (string * string)
}.

Definition cropDatabase : list (string * CropInfo) :=
  [ ("banana",
     {| commonDiseases := ["leaf spot"; "panama disease"; "black sigatoka"];
        pests := ["aphids"; "nematodes"; "thrips"];
        seasons := {| plant := "June-July"; harvest := "April-May" |};
        pesticides :=
          [ ("leaf spot", "Copper oxychloride 0.3% or Mancozeb 0.2%");
            ("black sigatoka", "Propiconazole 0.1%") ] |});
    ("rice",
     {| commonDiseases := ["blast"; "brown spot"; "sheath blight"];
        pests := ["stem borer"; "brown planthopper"; "leaf folder"];
        seasons := {| plant := "May-June, Nov-Dec"; harvest := "Sep-Oct, Mar-Apr" |};
        pesticides :=
          [ ("blast", "Tricyclazole 0.06% or Carbendazim 0.1%");
            ("brown spot", "Mancozeb 0.2%") ] |});
    ("tomato",
     {| commonDiseases := ["late blight"; "early blight"; "bacterial wilt"];
        pests := ["whitefly"; "fruit borer"; "aphids"];
        seasons := {| plant := "Oct-Nov, Jan-Feb"; harvest := "Dec-Jan, Apr-May" |};
        pesticides :=
          [ ("late blight", "Metalaxyl + Mancozeb 0.2%");
            ("early blight", "Chlorothalonil 0.2%") ] |}) ].

Record Scheme := { name : string; eligibility : string; benefit : string }.

Definition schemes : list (string * list Scheme) :=
  [ ("kerala",
     [ {| name := "Krishi Bhavan Support"; eligibility := "All farmers";
          benefit := "Free consultation" |};
       {| name := "Organic Farming Subsidy"; eligibility := "Small farmers";
          benefit := "50% subsidy on organic inputs" |};
       {| name := "Crop Insurance"; eligibility := "All farmers";
          benefit := "Weather risk coverage" |} ]) ].

(** ** Natural language understanding *)

Record Entities := {
  ent_crop : jstr;
  ent_disease : jstr;
  ent_pest : jstr;
  ent_location : jstr;
  ent_season : jstr
}.

Definition cropWords : list string :=
  ["banana"; "rice"; "tomato"; "coconut"; "pepper"; "cardamom"].
Definition diseaseWords : list string :=
  ["spot"; "blight"; "wilt"; "rot"; "disease"; "infection"].
Definition pestWords : list string :=
  ["aphid"; "borer"; "thrips"; "nematode"; "pest"; "insect"].

(** One [forEach] of [extractEntities]: every word found in the text
    overwrites the slot, so the last one found stays. *)
Definition scanWords (words : list string) (text : string) : jstr :=
  fold_left (fun slot word => if includes text word then JStr word else slot)
            words JNull.

Definition extractEntities (text : string) : Entities :=
  {| ent_crop := scanWords cropWords text;
     ent_disease := scanWords diseaseWords text;
     ent_pest := scanWords pestWords text;
     ent_location := JNull;
     ent_season := JNull |}.

Inductive Intent : Type :=
  | disease_diagnosis
  | pest_control
  | fertilizer_advice
  | weather_query
  | scheme_info
  | general_query.

Definition intentPatterns : list (Intent * list string) :=
  [ (disease_diagnosis, ["disease"; "problem"; "infected"; "spots"; "yellowing"]);
    (pest_control, ["pest"; "insect"; "eating"; "holes"; "damage"]);
    (fertilizer_advice, ["fertilizer"; "nutrient"; "growth"; "yield"]);
    (weather_query, ["weather"; "rain"; "temperature"; "climate"]);
    (scheme_info, ["scheme"; "subsidy"; "loan"; "government"; "support"]) ].

Fixpoint firstIntent (table : list (Intent * list string)) (text : string) : Intent :=
  match table with
  | [] => general_query
  | (intent, patterns) :: rest =>
      if existsb (includes text) patterns then intent else firstIntent rest text
  end.

Definition classifyIntent (text : string) : Intent := firstIntent intentPatterns text.

Definition commonPhrases : list (string * string) :=
  [ ("വാഴയില് പുള്ളി", "banana leaf spot");
    ("രോഗം", "disease");
    ("കീടം", "pest");
    ("മരുന്ന്", "medicine");
    ("എന്ത് ചെയ്യണം", "what to do") ].

Definition translateMalayalam (text : string) : string :=
  fold_left (fun t '(malayalam, english) => replace t malayalam english)
            commonPhrases text.

Record NluData := {
  originalText : string;
  translatedText : option string;
  entities : Entities;
  intent : Intent;
  nlu_confidence : Q
}.

(** What [processNaturalLanguage] returns: the result object, or the object
    [{ error }] of its catch clause. *)
Inductive NluResult : Type :=
  | NluOk (data : NluData)
  | NluError (error : string).

(** No step of the body raises on a string, so the catch clause stays unused. *)
Definition processNaturalLanguage (text language : string) : NluResult :=
  let entities := extractEntities (toLowerCase text) in
  let text := if String.eqb language "ml" then translateMalayalam text else text in
  let intent := classifyIntent text in
  NluOk {| originalText := text;
           translatedText := if String.eqb language "ml" then Some text else None;
           entities := entities;
           intent := intent;
           nlu_confidence := 0.85 |}.

(** ** Image and voice collaborators (the mocks of the source) *)

Inductive Severity : Type := low | medium | high.

Record ImageAnalysis := {
  img_disease : string;
  img_confidence : Q;
  symptoms : list string;
  severity : Severity
}.

(** [path.basename(p)] (POSIX): the last component that is not empty. *)
Fixpoint basenameFrom (current last : string) (p : string) : string :=
  match p with
  | EmptyString => if String.eqb current "" then last else current
  | String c rest =>
      if Ascii.eqb c "/"%char
      then basenameFrom "" (if String.eqb current "" then last else current) rest
      else basenameFrom (current +:+ String c "") last rest
  end.

Definition basename (p : string) : string := basenameFrom "" "" p.

Definition diseasePatterns : list (string * (string * Q)) :=
  [ ("spot", ("Leaf Spot", 0.82%Q));
    ("blight", ("Late Blight", 0.89%Q));
    ("yellow", ("Nutrient Deficiency", 0.75%Q));
    ("brown", ("Fungal Infection", 0.78%Q)) ].

Fixpoint firstPattern (table : list (string * (string * Q))) (fileName : string)
  : option ImageAnalysis :=
  match table with
  | [] => None
  | (pattern, (disease, confidence)) :: rest =>
      if includes fileName pattern
      then Some {| img_disease := disease;
                   img_confidence := confidence;
                   symptoms := ["Visible " +:+ pattern +:+ " patterns"; "Affected leaf areas"];
                   severity := if lt 0.8%Q confidence then high else medium |}
      else firstPattern rest fileName
  end.

(** No step of the body raises on a string path, so the result is never the
    object of the catch clause. *)
Definition analyzeImage (imagePath cropType : string) : ImageAnalysis :=
  let fileName := toLowerCase (basename imagePath) in
  match firstPattern diseasePatterns fileName with
  | Some result => result
  | None => {| img_disease := "Unknown condition";
               img_confidence := 0.45;
               symptoms := ["Unclear symptoms from image"];
               severity := low |}
  end.

Record VoiceResult := {
  voice_text : string;
  voice_language : string;
  voice_confidence : Q
}.

Definition processVoice (audioPath : string) : VoiceResult :=
  {| voice_text := "വാഴയിൽ പുള്ളി രോഗം വന്നിട്ടുണ്ട്, എന്ത് മരുന്ന് ഉപയോഗിക്കണം?";
     voice_language := "ml";
     voice_confidence := 0.87 |}.

(** ** Utility functions *)

(** The clock of one request: [Date.now()] and [new Date().getMonth()]
    (0 to 11).  The readings of one request are taken to agree. *)
Record Clock := { now : Z; getMonth : Z }.

(** The body of [getCurrentSeason] after [month] is read. *)
Definition seasonOfMonth (month : Z) : string :=
  if (month >=? 6) && (month <=? 9) then "monsoon"
  else if (month >=? 10) && (month <=? 2) then "post-monsoon"
  else "pre-monsoon".

Definition getCurrentSeason (clock : Clock) : string :=
  seasonOfMonth (getMonth clock + 1).

Record Weather := {
  condition : string;
  temperature : Z;
  humidity : Z;
  rainfall : string
}.

Definition getLocalWeather (location : string) : Weather :=
  {| condition := "partly cloudy"; temperature := 28; humidity := 75;
     rainfall := "moderate" |}.

Record CropCalendar := {
  plantingSeason : string;
  harvestSeason : string;
  nextActivity : string
}.

(** [cropDatabase[crop]] is truthy for an inherited key, and reading
    [seasons.plant] of it raises. *)
Definition getCropCalendar (crop location : string) : outcome (option CropCalendar) :=
  match getProp cropDatabase crop with
  | Absent => Ok None
  | Inherited _ => Throw "TypeError: Cannot read properties of undefined (reading 'plant')"
  | Own cropInfo =>
      Ok (Some {| plantingSeason := plant (seasons cropInfo);
                  harvestSeason := harvest (seasons cropInfo);
                  nextActivity := "Apply fertilizer in 2 weeks" |})
  end.

(** ** In-memory stores *)

(** The context that [generateAdvice] builds.  [previousQueries] holds
    references to records of the query log: a record is named by its position
    in the log, which only grows, so a later change of a record (its feedback)
    is seen through every reference to it. *)
Record AiContext := {
  ctx_location : jstr;
  ctx_crop : jstr;
  ctx_season : jstr;
  previousQueries : list nat;
  localWeather : Weather;
  cropCalendar : option CropCalendar
}.

Record AdviceData := {
  mainAdvice : string;
  recommendations : list string;
  confidence : Q;
  shouldEscalate : bool;
  context : AiContext
}.

(** What [generateAdvice] returns: the advice object, or the object
    [{ error }] of its catch clause. *)
Inductive AiResponse : Type :=
  | AdviceOk (advice : AdviceData)
  | AdviceError (error : string).

(** A value of a JSON request body. *)
Inductive jsvalue : Type :=
  | VUndefined
  | VNull
  | VBool (b : bool)
  | VNum (q : Q)
  | VStr (s : string).

Record FeedbackEntry := {
  fb_queryId : jsvalue;
  rating : jsvalue;
  comments : jsvalue;
  isHelpful : jsvalue;
  fb_timestamp : Z
}.

(** The query object handed to [recordQuery].  [q_language] is the property
    that [getLanguageDistribution] reads; [None] when the object has none. *)
Record Query := {
  queryText : string;
  q_farmerId : string;
  q_crop : string;
  q_location : string;
  q_season : string;
  q_language : option string
}.

Record QueryRecord := {
  rec_id : Z;
  rec_timestamp : Z;
  rec_query : Query;
  rec_response : AiResponse;
  rec_feedback : option FeedbackEntry;
  rec_farmerId : string
}.

Record FarmerProfile := {
  fp_id : string;
  fp_location : string;
  crops : list string;
  queryHistory : list Z;
  joinDate : Z
}.

Inductive Priority : Type := PriorityHigh | PriorityMedium.

Record EscalationRecord := {
  esc_id : Z;
  esc_farmerId : string;
  originalQuery : string;
  nlpResult : option NluResult;
  imageAnalysis : option ImageAnalysis;
  aiResponse : AiResponse;
  esc_location : string;
  esc_crop : string;
  priority : Priority;
  createdAt : Z
}.

Record Store := {
  farmers : gmap string FarmerProfile;
  escalations : list EscalationRecord;
  queries : list QueryRecord;
  feedback : list FeedbackEntry
}.

Definition emptyStore : Store :=
  {| farmers := ∅; escalations := []; queries := []; feedback := [] |}.

(** ** Context-aware advice *)

(** [generateDiseaseAdvice]: an unknown crop returns the general
    recommendation at once; an inherited key makes [cropInfo.pesticides]
    undefined and indexing it raises. *)
Definition firstListed (table : list (string * string)) : string :=
  match table with
  | (_, treatment) :: _ => treatment
  | [] => "undefined"
  end.

Definition treatmentFor (table : list (string * string)) (disease : string) : string :=
  match getProp table (toLowerCase disease) with
  | Own treatment => if String.eqb treatment "" then firstListed table else treatment
  | Inherited text => text
  | Absent => firstListed table
  end.

Definition generateDiseaseAdvice (image : ImageAnalysis) (context : AiContext)
  : outcome string :=
  let disease := img_disease image in
  let crop := toText (ctx_crop context) in
  match getProp cropDatabase crop with
  | Absent =>
      Ok ("Detected " +:+ disease +:+
          ". General recommendation: Consult with local agricultural officer for crop-specific treatment.")
  | Inherited _ => Throw "TypeError: Cannot read properties of undefined"
  | Own cropInfo =>
      let treatment := treatmentFor (pesticides cropInfo) disease in
      let advice := "Detected " +:+ disease +:+ " in your " +:+ crop +:+ ". " in
      let advice :=
        match severity image with
        | high => advice +:+ "This is a serious condition requiring immediate attention. "
        | _ => advice
        end in
      let advice := advice +:+ "Recommended treatment: " +:+ treatment +:+ ". " in
      let advice := advice +:+ "Apply during early morning or late evening. " in
      let advice := advice +:+ "Ensure proper coverage of affected areas." in
      let advice :=
        if truthy (ctx_season context)
        then advice +:+ " Since it's " +:+ toText (ctx_season context) +:+
             ", also ensure proper drainage and avoid overhead irrigation."
        else advice in
      Ok advice
  end.

Definition generateIntentBasedAdvice (nlp : NluData) (context : AiContext)
  : outcome string :=
  let crop := toText (ctx_crop context) in
  let location := toText (ctx_location context) in
  match intent nlp with
  | disease_diagnosis =>
      Ok ("For " +:+ crop +:+ " disease issues in " +:+ location +:+
          ", I recommend uploading a clear photo of the affected plant parts for accurate diagnosis.")
  | pest_control =>
      match getProp cropDatabase crop with
      | Own cropInfo =>
          Ok ("Common pests in " +:+ crop +:+ ": " +:+ join ", " (pests cropInfo) +:+
              ". Use IPM approach - neem oil spray, yellow sticky traps, and biological control agents.")
      | Inherited _ => Throw "TypeError: Cannot read properties of undefined (reading 'join')"
      | Absent =>
          Ok ("For pest control in " +:+ crop +:+
              ", use integrated pest management. Upload photos for specific identification.")
      end
  | fertilizer_advice =>
      Ok ("For " +:+ crop +:+ " in " +:+
          toText (por (ctx_season context) (JStr "current season")) +:+
          ", use balanced NPK fertilizer. Soil testing recommended for precise nutrient management.")
  | scheme_info =>
      let key :=
        match ctx_location context with
        | JStr l => toLowerCase l
        | _ => "undefined"
        end in
      match getProp schemes key with
      | Inherited _ => Throw "TypeError: locationSchemes.map is not a function"
      | found =>
          let locationSchemes := match found with Own l => l | _ => [] end in
          Ok ("Available schemes: " +:+ join ", " (map name locationSchemes) +:+
              ". Contact your local Krishi Bhavan for applications.")
      end
  | _ =>
      Ok ("I understand you're asking about " +:+ crop +:+
          ". Please provide more specific details or upload photos for better assistance.")
  end.

Definition getContextualRecommendations (context : AiContext) : list string :=
  let recommendations := [] in
  let recommendations :=
    if String.eqb (condition (localWeather context)) "rainy"
    then recommendations ++
         ["⛈ Heavy rains expected - ensure proper drainage to prevent fungal diseases"]
    else recommendations in
  let recommendations :=
    match ctx_season context with
    | JStr "monsoon" =>
        recommendations ++
        ["🌧 Monsoon season - increase surveillance for disease outbreaks"]
    | _ => recommendations
    end in
  match cropCalendar context with
  | Some calendar =>
      if String.eqb (nextActivity calendar) "" then recommendations
      else recommendations ++ ["📅 Upcoming: " +:+ nextActivity calendar]
  | None => recommendations
  end.

(** The [context] argument of [generateAdvice]. *)
Record AdviceInput := {
  in_nlp : option NluResult;
  in_imageAnalysis : option ImageAnalysis;
  in_crop : string;
  in_location : string;
  in_season : string;
  in_farmerId : string
}.

(** [nlp?.entities?.crop]. *)
Definition nlpCrop (nlp : option NluResult) : jstr :=
  match nlp with
  | Some (NluOk data) => ent_crop (entities data)
  | _ => JUndefined
  end.

(** [farmerHistory.slice(-5)]. *)
Definition lastFive {A : Type} (l : list A) : list A :=
  drop (length l - 5)%nat l.

(** The try block of [generateAdvice]. *)
Definition generateAdviceBody (st : Store) (clock : Clock) (query : Query)
    (input : AdviceInput) (farmerHistory : list nat) : outcome AdviceData :=
  let nlp := in_nlp input in
  let crop := in_crop input in
  let location := in_location input in
  let season := in_season input in
  let profileLocation :=
    match farmers st !! in_farmerId input with
    | Some farmerProfile => JStr (fp_location farmerProfile)
    | None => JUndefined
    end in
  calendar ← getCropCalendar crop location;
  let aiContext :=
    {| ctx_location := por (JStr location) profileLocation;
       ctx_crop := por (JStr crop) (nlpCrop nlp);
       ctx_season := por (JStr season) (JStr (getCurrentSeason clock));
       previousQueries := lastFive farmerHistory;
       localWeather := getLocalWeather location;
       cropCalendar := calendar |} in
  let unknown :=
    Ok ("I need more information to help you better. Could you describe your problem or upload a photo?",
        0.3%Q) in
  let textual :=
    match nlp with
    | Some (NluOk data) =>
        advice ← generateIntentBasedAdvice data aiContext;
        Ok (advice, if Qeq_bool (nlu_confidence data) 0 then 0.7%Q else nlu_confidence data)
    | _ => unknown
    end in
  result ←
    match in_imageAnalysis input with
    | Some image =>
        if String.eqb (img_disease image) "Unknown condition" then textual
        else advice ← generateDiseaseAdvice image aiContext;
             Ok (advice, img_confidence image)
    | None => textual
    end;
  let '(advice, confidence) := result in
  Ok {| mainAdvice := advice;
        recommendations := getContextualRecommendations aiContext;
        confidence := confidence;
        shouldEscalate := lt confidence 0.6;
        context := aiContext |}.

Definition generateAdvice (st : Store) (clock : Clock) (query : Query)
    (input : AdviceInput) (farmerHistory : list nat) : AiResponse :=
  match generateAdviceBody st clock query input farmerHistory with
  | Ok advice => AdviceOk advice
  | Throw _ => AdviceError "Could not generate advice"
  end.

(** ** Learning loop *)

Definition newProfile (clock : Clock) (query : Query) : FarmerProfile :=
  {| fp_id := q_farmerId query;
     fp_location := q_location query;
     crops := [];
     queryHistory := [];
     joinDate := now clock |}.

(** [recordQuery(query, response)]: the record is pushed on the log, the
    profile is created when the farmer is new, then updated in place and
    stored again. *)
Definition recordQuery (st : Store) (clock : Clock) (query : Query)
    (response : AiResponse) : Store :=
  let queryRecord :=
    {| rec_id := now clock;
       rec_timestamp := now clock;
       rec_query := query;
       rec_response := response;
       rec_feedback := None;
       rec_farmerId := q_farmerId query |} in
  let farmer :=
    match farmers st !! q_farmerId query with
    | Some profile => profile
    | None => newProfile clock query
    end in
  let history := queryHistory farmer ++ [rec_id queryRecord] in
  let crops' :=
    if negb (String.eqb (q_crop query) "")
       && negb (bool_decide (q_crop query ∈ crops farmer))
    then crops farmer ++ [q_crop query]
    else crops farmer in
  {| farmers :=
       <[q_farmerId query :=
           {| fp_id := fp_id farmer;
              fp_location := fp_location farmer;
              crops := crops';
              queryHistory := history;
              joinDate := joinDate farmer |}]> (farmers st);
     escalations := escalations st;
     queries := queries st ++ [queryRecord];
     feedback := feedback st |}.

(** ** The query route *)

Record Request := {
  body_queryText : option string;
  body_location : option string;
  body_crop : option string;
  body_farmerId : option string;
  body_language : option string;
  body_season : option string;
  file_image : option string;
  file_audio : option string
}.

Inductive Status : Type := answered | escalated.

Record Response := {
  answer : option string;
  resp_recommendations : list string;
  resp_confidence : option Q;
  status : Status;
  detectedCrop : jstr;
  detectedDisease : option string;
  resp_season : string;
  resp_language : string;
  nlpProcessed : bool;
  imageProcessed : bool;
  voiceProcessed : bool
}.

(** [aiResponse.shouldEscalate || aiResponse.confidence < 0.6]; both
    properties are undefined on the error object. *)
Definition needsEscalation (response : AiResponse) : bool :=
  match response with
  | AdviceOk advice => shouldEscalate advice || lt (confidence advice) 0.6
  | AdviceError _ => false
  end.

(** [aiResponse.confidence < 0.4 ? 'high' : 'medium']. *)
Definition priorityOf (response : AiResponse) : Priority :=
  match response with
  | AdviceOk advice => if lt (confidence advice) 0.4 then PriorityHigh else PriorityMedium
  | AdviceError _ => PriorityMedium
  end.

(** The escalation block of the route. *)
Definition escalate (st : Store) (clock : Clock) (farmerId processedQuery : string)
    (nlp : option NluResult) (image : option ImageAnalysis) (response : AiResponse)
    (location crop : string) : Status * Store :=
  if needsEscalation response
  then (escalated,
        {| farmers := farmers st;
           escalations := escalations st ++
             [ {| esc_id := now clock;
                  esc_farmerId := farmerId;
                  originalQuery := processedQuery;
                  nlpResult := nlp;
                  imageAnalysis := image;
                  aiResponse := response;
                  esc_location := location;
                  esc_crop := crop;
                  priority := priorityOf response;
                  createdAt := now clock |} ];
           queries := queries st;
           feedback := feedback st |})
  else (answered, st).

(** [queries.filter(q => q.query.farmerId === farmerId)], as references. *)
Fixpoint historyFrom (position : nat) (log : list QueryRecord) (farmerId : string)
  : list nat :=
  match log with
  | [] => []
  | q :: rest =>
      if String.eqb (q_farmerId (rec_query q)) farmerId
      then position :: historyFrom (S position) rest farmerId
      else historyFrom (S position) rest farmerId
  end.

(** The try block of the route.  [language] is bound by [const], so the
    assignment in the voice branch raises a TypeError; [processVoice] always
    returns a text, so every request that carries audio ends there. *)
Definition queryRouteBody (st : Store) (clock : Clock) (req : Request)
  : outcome (Response * Store) :=
  let queryText := default "" (body_queryText req) in
  let location := default "" (body_location req) in
  let crop := default "" (body_crop req) in
  let farmerId := default "anonymous" (body_farmerId req) in
  let language := default "en" (body_language req) in
  let season := default "" (body_season req) in
  voiced ←
    match file_audio req with
    | Some audioPath =>
        let voiceResult := processVoice audioPath in
        if String.eqb (voice_text voiceResult) ""
        then Ok (queryText, Some voiceResult)
        else Throw "Assignment to constant variable."
    | None => Ok (queryText, None)
    end;
  let '(processedQuery, voiceResult) := voiced in
  let nlp :=
    if String.eqb processedQuery "" then None
    else Some (processNaturalLanguage processedQuery language) in
  let image := (fun imagePath => analyzeImage imagePath crop) <$> file_image req in
  let farmerHistory := historyFrom 0 (queries st) farmerId in
  let query :=
    {| queryText := processedQuery; q_farmerId := farmerId; q_crop := crop;
       q_location := location; q_season := season; q_language := None |} in
  let response :=
    generateAdvice st clock query
      {| in_nlp := nlp; in_imageAnalysis := image; in_crop := crop;
         in_location := location; in_season := season; in_farmerId := farmerId |}
      farmerHistory in
  let escalation :=
    escalate st clock farmerId processedQuery nlp image response location crop in
  let status := fst escalation in
  let st := recordQuery (snd escalation) clock query response in
  Ok ({| answer := match response with AdviceOk a => Some (mainAdvice a) | _ => None end;
         resp_recommendations :=
           match response with AdviceOk a => recommendations a | _ => [] end;
         resp_confidence :=
           match response with AdviceOk a => Some (confidence a) | _ => None end;
         status := status;
         detectedCrop := por (nlpCrop nlp) (JStr crop);
         detectedDisease := img_disease <$> image;
         resp_season := toText (por (JStr season) (JStr (getCurrentSeason clock)));
         resp_language := language;
         nlpProcessed := bool_decide (is_Some nlp);
         imageProcessed := bool_decide (is_Some image);
         voiceProcessed := bool_decide (is_Some voiceResult) |},
      st).

(** What a route sends: a JSON body, or the status 500 of its catch clause.
    Nothing is stored before the point where the query route can raise. *)
Inductive Reply (A : Type) : Type :=
  | Json (body : A)
  | ServerError (error details : string).
Arguments Json {A} body.
Arguments ServerError {A} error details.

Definition queryRoute (st : Store) (clock : Clock) (req : Request)
  : Reply Response * Store :=
  match queryRouteBody st clock req with
  | Ok (response, st') => (Json response, st')
  | Throw message => (ServerError "Failed to process your query" message, st)
  end.

(** ** The feedback route *)

Record FeedbackBody := {
  body_queryId : jsvalue;
  body_rating : jsvalue;
  body_comments : jsvalue;
  body_isHelpful : jsvalue
}.

(** [q.id === queryId], the id being a number. *)
Definition strictEq (id : Z) (v : jsvalue) : bool :=
  match v with
  | VNum q => Qeq_bool (inject_Z id) q
  | _ => false
  end.

(** [l.findIndex(p)]; [None] stands for -1. *)
Fixpoint findIndex {A : Type} (p : A -> bool) (l : list A) : option nat :=
  match l with
  | [] => None
  | x :: rest => if p x then Some 0%nat else S <$> findIndex p rest
  end.

Definition setFeedback (entry : FeedbackEntry) (q : QueryRecord) : QueryRecord :=
  {| rec_id := rec_id q; rec_timestamp := rec_timestamp q; rec_query := rec_query q;
     rec_response := rec_response q; rec_feedback := Some entry;
     rec_farmerId := rec_farmerId q |}.

Definition feedbackRoute (st : Store) (clock : Clock) (body : FeedbackBody)
  : Reply string * Store :=
  let feedbackEntry :=
    {| fb_queryId := body_queryId body; rating := body_rating body;
       comments := body_comments body; isHelpful := body_isHelpful body;
       fb_timestamp := now clock |} in
  let feedback' := feedback st ++ [feedbackEntry] in
  let queries' :=
    match findIndex (fun q => strictEq (rec_id q) (body_queryId body)) (queries st) with
    | Some queryIndex => alter (setFeedback feedbackEntry) queryIndex (queries st)
    | None => queries st
    end in
  (Json "Feedback recorded successfully",
   {| farmers := farmers st; escalations := escalations st;
      queries := queries'; feedback := feedback' |}).

(** ** Analytics *)

(** The result of a JavaScript division. *)
Inductive jsnum : Type :=
  | Num (q : Q)
  | NaN
  | PosInfinity
  | NegInfinity.

(** [a / b] for a divisor that is a length (never negative). *)
Definition divide (a b : Q) : jsnum :=
  if Qeq_bool b 0
  then if Qeq_bool a 0 then NaN
       else if lt 0 a then PosInfinity else NegInfinity
  else Num (a / b).

(** [x * 100]. *)
Definition times100 (x : jsnum) : jsnum :=
  match x with
  | Num q => Num (q * 100)
  | other => other
  end.

(** [x.toFixed(digits)] below 1e21: the nearest decimal with that many
    digits, the larger one on a tie; NaN and the infinities print by name. *)
Definition toFixed (x : jsnum) (digits : nat) : string :=
  match x with
  | NaN => "NaN"
  | PosInfinity => "Infinity"
  | NegInfinity => "-Infinity"
  | Num q =>
      let scale := 10 ^ Z.of_nat digits in
      let d := Z.pos (Qden q) in
      let n := (2 * Z.abs (Qnum q) * scale + d) / (2 * d) in
      let sign := if Qnum q <? 0 then "-" else "" in
      let whole := pretty (n / scale) in
      match digits with
      | O => sign +:+ whole
      | _ => sign +:+ whole +:+ "." +:+ dropChars 1 (pretty (scale + n mod scale))
      end
  end.

(** [q.response?.confidence || 0]. *)
Definition confidenceOrZero (q : QueryRecord) : Q :=
  match rec_response q with
  | AdviceOk advice => confidence advice
  | AdviceError _ => 0
  end.

(** [getLanguageDistribution].  The counts are kept in a map from language
    to count; no recorded language is a key inherited from
    [Object.prototype]. *)
Definition countLanguage (langCount : gmap string nat) (q : QueryRecord)
  : gmap string nat :=
  let lang :=
    match q_language (rec_query q) with
    | Some l => if String.eqb l "" then "en" else l
    | None => "en"
    end in
  <[lang := (default 0%nat (langCount !! lang) + 1)%nat]> langCount.

Definition getLanguageDistribution (st : Store) : gmap string nat :=
  fold_left countLanguage (queries st)
    (<["en" := 0%nat]> (<["ml" := 0%nat]> (<["hi" := 0%nat]> (<["other" := 0%nat]> ∅)))).

(** The analytics object, without [topCrops] and [topDiseases] (two counting
    loops that read the stores and cannot raise).  [avgConfidence] adds the
    confidences as exact rationals where the code adds doubles, so on a log
    that is not empty its last digit may differ from the code's. *)
Record Analytics := {
  totalQueries : nat;
  totalFarmers : nat;
  escalationRate : string;
  avgConfidence : string;
  languageDistribution : gmap string nat
}.

Definition lengthQ {A : Type} (l : list A) : Q := inject_Z (Z.of_nat (length l)).

Definition analyticsRoute (st : Store) : Reply Analytics :=
  Json {| totalQueries := length (queries st);
          totalFarmers := size (farmers st);
          escalationRate :=
            toFixed (times100 (divide (lengthQ (escalations st)) (lengthQ (queries st)))) 1;
          avgConfidence :=
            toFixed (divide (fold_left (fun sum q => sum + confidenceOrZero q)%Q
                                       (queries st) 0%Q)
                            (lengthQ (queries st))) 2;
          languageDistribution := getLanguageDistribution st |}.

(** ** Server runs *)

(** The requests that change the stores.  The two GET routes only read. *)
Inductive Operation : Type :=
  | PostQuery (clock : Clock) (req : Request)
  | PostFeedback (clock : Clock) (body : FeedbackBody).

Definition step (st : Store) (op : Operation) : Store :=
  match op with
  | PostQuery clock req => snd (queryRoute st clock req)
  | PostFeedback clock body => snd (feedbackRoute st clock body)
  end.

(** The stores after a list of requests, served one after the other from the
    start of the process. *)
Definition run (ops : list Operation) : Store := fold_left step ops emptyStore.

(** A query request that the route stores. *)
Definition storedQuery (op : Operation) : bool :=
  match op with
  | PostQuery _ req => match file_audio req with None => true | Some _ => false end
  | PostFeedback _ _ => false
  end.

(** The stores after a list of calls of [recordQuery] alone. *)
Definition recordAll (calls : list (Clock * Query * AiResponse)) : Store :=
  fold_left (fun st '(clock, query, response) => recordQuery st clock query response)
            calls emptyStore.

(** [farmers.get(id).crops], empty while the farmer has no profile. *)
Definition cropsOf (st : Store) (farmerId : string) : list string :=
  match farmers st !! farmerId with
  | Some profile => crops profile
  | None => []
  end.

(** The properties of an advice result that the route reads. *)
Definition adviceConfidence (response : AiResponse) : option Q :=
  match response with
  | AdviceOk advice => Some (confidence advice)
  | AdviceError _ => None
  end.

Definition adviceFlag (response : AiResponse) : bool :=
  match response with
  | AdviceOk advice => shouldEscalate advice
  | AdviceError _ => false
  end.

(** The entities of a text in which no vocabulary word occurs. *)
Definition noEntities : Entities :=
  {| ent_crop := JNull; ent_disease := JNull; ent_pest := JNull;
     ent_location := JNull; ent_season := JNull |}.

(** The sentence that [generateDiseaseAdvice] adds for a severe finding. *)
Definition urgencyPhrase : string :=
  "This is a serious condition requiring immediate attention.".

(** The flag of an advice result and the threshold test of the route agree. *)
Definition flagAgrees (response : AiResponse) : Prop :=
  match response with
  | AdviceOk advice => shouldEscalate advice = lt (confidence advice) 0.6
  | AdviceError _ => True
  end.

(** One more crop, or none: how a crop list may change in one request. *)
Definition grewByAtMostOne (before after : list string) : Prop :=
  after = before \/ (exists crop, (crop ∉ before) /\ after = before ++ [crop]).

(** A record of a query object without a language. *)
Definition noLanguage (q : QueryRecord) : Prop := q_language (rec_query q) = None.

(** ** The escalations route *)

(** [escalations.slice(-50)]. *)
Definition lastFifty {A : Type} (l : list A) : list A :=
  drop (length l - 50)%nat l.

(** One entry of the reply: the record spread out, with [farmerInfo];
    [None] is the empty object that stands in for a missing profile. *)
Record EscalationView := {
  view_record : EscalationRecord;
  farmerInfo : option FarmerProfile
}.

(** The body of the reply; the route's catch clause is never reached. *)
Definition escalationViews (st : Store) : list EscalationView :=
  map (fun esc => {| view_record := esc;
                     farmerInfo := farmers st !! esc_farmerId esc |})
      (lastFifty (escalations st)).

Definition escalationsRoute (st : Store) : Reply (list EscalationView) :=
  Json (escalationViews st).

(** ** What the query route computes from a request without audio *)

Definition requestText (req : Request) : string := default "" (body_queryText req).
Definition requestCrop (req : Request) : string := default "" (body_crop req).
Definition requestLocation (req : Request) : string := default "" (body_location req).
Definition requestFarmer (req : Request) : string :=
  default "anonymous" (body_farmerId req).

Definition requestNlp (req : Request) : option NluResult :=
  if String.eqb (requestText req) "" then None
  else Some (processNaturalLanguage (requestText req)
                                    (default "en" (body_language req))).

Definition requestImage (req : Request) : option ImageAnalysis :=
  (fun imagePath => analyzeImage imagePath (requestCrop req)) <$> file_image req.

Definition requestQuery (req : Request) : Query :=
  {| queryText := requestText req; q_farmerId := requestFarmer req;
     q_crop := requestCrop req; q_location := requestLocation req;
     q_season := default "" (body_season req); q_language := None |}.

Definition requestInput (req : Request) : AdviceInput :=
  {| in_nlp := requestNlp req; in_imageAnalysis := requestImage req;
     in_crop := requestCrop req; in_location := requestLocation req;
     in_season := default "" (body_season req); in_farmerId := requestFarmer req |}.

Definition requestAdvice (st : Store) (clock : Clock) (req : Request) : AiResponse :=
  generateAdvice st clock (requestQuery req) (requestInput req)
                 (historyFrom 0 (queries st) (requestFarmer req)).

(** The record that the route appends for the request. *)
Definition requestRecord (st : Store) (clock : Clock) (req : Request) : QueryRecord :=
  {| rec_id := now clock; rec_timestamp := now clock;
     rec_query := requestQuery req; rec_response := requestAdvice st clock req;
     rec_feedback := None; rec_farmerId := requestFarmer req |}.

(** The image of the request shows no disease: there is no image, or its
    finding is the sentinel. *)
Definition noFinding (req : Request) : Prop :=
  match requestImage req with
  | Some image => img_disease image = "Unknown condition"
  | None => True
  end.

(** The location of the advice context: the request's, else the profile's. *)
Definition contextLocation (st : Store) (req : Request) : jstr :=
  por (JStr (requestLocation req))
      (match farmers st !! requestFarmer req with
       | Some farmerProfile => JStr (fp_location farmerProfile)
       | None => JUndefined
       end).

(** The key under which [generateIntentBasedAdvice] looks a location up in
    [schemes]. *)
Definition schemeKey (location : jstr) : string :=
  match location with
  | JStr l => toLowerCase l
  | _ => "undefined"
  end.

(** The season of the advice context: the request's, else the default. *)
Definition contextSeason (clock : Clock) (season : string) : string :=
  if String.eqb season "" then getCurrentSeason clock else season.

(** The confidences that a reply of the query route can carry. *)
Definition routeConfidences : list Q := [0.3; 0.85; 0.82; 0.89; 0.75; 0.78]%Q.

(** The confidence that [generateAdvice] gives, by the branch it takes: that
    of the finding, else that of the language result, else 0.3. *)
Definition textConfidence (nlp : option NluResult) : Q :=
  match nlp with
  | Some (NluOk data) =>
      if Qeq_bool (nlu_confidence data) 0 then 0.7%Q else nlu_confidence data
  | _ => 0.3%Q
  end.

Definition branchConfidence (input : AdviceInput) : Q :=
  match in_imageAnalysis input with
  | Some image =>
      if String.eqb (img_disease image) "Unknown condition"
      then textConfidence (in_nlp input)
      else img_confidence image
  | None => textConfidence (in_nlp input)
  end.

(** The context that [generateAdvice] builds once the crop calendar is read. *)
Definition adviceContext (st : Store) (clock : Clock) (input : AdviceInput)
    (farmerHistory : list nat) (calendar : option CropCalendar) : AiContext :=
  {| ctx_location :=
       por (JStr (in_location input))
           (match farmers st !! in_farmerId input with
            | Some farmerProfile => JStr (fp_location farmerProfile)
            | None => JUndefined
            end);
     ctx_crop := por (JStr (in_crop input)) (nlpCrop (in_nlp input));
     ctx_season := por (JStr (in_season input)) (JStr (getCurrentSeason clock));
     previousQueries := lastFive farmerHistory;
     localWeather := getLocalWeather (in_location input);
     cropCalendar := calendar |}.

(** The advice text that [generateAdvice] gives, by the branch it takes. *)
Definition textAdvice (nlp : option NluResult) (aiContext : AiContext) : outcome string :=
  match nlp with
  | Some (NluOk data) => generateIntentBasedAdvice data aiContext
  | _ => Ok "I need more information to help you better. Could you describe your problem or upload a photo?"
  end.

Definition branchAdvice (input : AdviceInput) (aiContext : AiContext) : outcome string :=
  match in_imageAnalysis input with
  | Some image =>
      if String.eqb (img_disease image) "Unknown condition"
      then textAdvice (in_nlp input) aiContext
      else generateDiseaseAdvice image aiContext
  | None => textAdvice (in_nlp input) aiContext
  end.

(** A slot of [extractEntities] against its vocabulary: the last word of the
    vocabulary that occurs in the text, or [null] when none occurs. *)
Definition lastOccurring (words : list string) (text : string) (slot : jstr) : Prop :=
  match slot with
  | JStr word =>
      exists before after,
        words = before ++ word :: after /\
        includes text word = true /\
        Forall (fun later => includes text later = false) after
  | JNull => Forall (fun word => includes text word = false) words
  | JUndefined => False
  end.

(** No trigger keyword of the table entry occurs in the text. *)
Definition silent (text : string) (entry : Intent * list string) : Prop :=
  existsb (includes text) (snd entry) = false.

(** A query record with its feedback taken off: the part that no route
    changes once the record is in the log. *)
Definition withoutFeedback (q : QueryRecord) : QueryRecord :=
  {| rec_id := rec_id q; rec_timestamp := rec_timestamp q; rec_query := rec_query q;
     rec_response := rec_response q; rec_feedback := None;
     rec_farmerId := rec_farmerId q |}.

(** The feedback of a record, if it has one, names the id of the record and
    is an entry of the feedback log. *)
Definition attachedFeedback (log : list FeedbackEntry) (q : QueryRecord) : Prop :=
  match rec_feedback q with
  | Some entry => strictEq (rec_id q) (fb_queryId entry) = true /\ entry ∈ log
  | None => True
  end.

(** The records of one farmer, in log order. *)
Definition recordsOf (st : Store) (farmerId : string) : list QueryRecord :=
  List.filter (fun q => String.eqb (rec_farmerId q) farmerId) (queries st).

(** ** Sample requests *)

Definition sampleClock : Clock := {| now := 1700000000000; getMonth := 10 |}.

Definition emptyRequest : Request :=
  {| body_queryText := None; body_location := None; body_crop := None;
     body_farmerId := None; body_language := None; body_season := None;
     file_image := None; file_audio := None |}.

(** A text question about tomato. *)
Definition tomatoRequest : Request :=
  {| body_queryText := Some "my tomato has late blight spots";
     body_location := None; body_crop := Some "tomato";
     body_farmerId := None; body_language := None; body_season := None;
     file_image := None; file_audio := None |}.

(** A text question in Malayalam. *)
Definition malayalamRequest : Request :=
  {| body_queryText := Some "വാഴയില് പുള്ളി";
     body_location := None; body_crop := None;
     body_farmerId := None; body_language := Some "ml"; body_season := None;
     file_image := None; file_audio := None |}.

(** A severe finding, as a classifier may return it, on a crop that the
    knowledge base does not hold. *)
Definition severeBlight : ImageAnalysis :=
  {| img_disease := "Late Blight"; img_confidence := 0.89;
     symptoms := ["Visible blight patterns"; "Affected leaf areas"];
     severity := high |}.

Definition coconutBlightInput : AdviceInput :=
  {| in_nlp := None; in_imageAnalysis := Some severeBlight;
     in_crop := "coconut"; in_location := ""; in_season := "";
     in_farmerId := "anonymous" |}.

Definition coconutQuery : Query :=
  {| queryText := ""; q_farmerId := "anonymous"; q_crop := "coconut";
     q_location := ""; q_season := ""; q_language := None |}.

(** A voice note. *)
Definition voiceRequest : Request :=
  {| body_queryText := None; body_location := None; body_crop := None;
     body_farmerId := None; body_language := None; body_season := None;
     file_image := None; file_audio := Some "uploads/note.ogg" |}.

(** The finding of the photo blight.jpg, asked about tomato. *)
Definition tomatoBlightInput : AdviceInput :=
  {| in_nlp := None;
     in_imageAnalysis := Some (analyzeImage "uploads/blight.jpg" "tomato");
     in_crop := "tomato"; in_location := ""; in_season := "";
     in_farmerId := "anonymous" |}.

Definition tomatoBlightQuery : Query :=
  {| queryText := ""; q_farmerId := "anonymous"; q_crop := "tomato";
     q_location := ""; q_season := ""; q_language := None |}.

(** A finding with confidence 0.45 on banana, as a classifier may return it. *)
Definition faintLeafSpot : ImageAnalysis :=
  {| img_disease := "Leaf Spot"; img_confidence := 0.45;
     symptoms := ["Visible spot patterns"; "Affected leaf areas"];
     severity := medium |}.

Definition bananaLeafSpotInput : AdviceInput :=
  {| in_nlp := None; in_imageAnalysis := Some faintLeafSpot;
     in_crop := "banana"; in_location := ""; in_season := "";
     in_farmerId := "anonymous" |}.

Definition bananaLeafSpotQuery : Query :=
  {| queryText := ""; q_farmerId := "anonymous"; q_crop := "banana";
     q_location := ""; q_season := ""; q_language := None |}.

(** A question from farmer f1 about rice. *)
Definition riceRequest : Request :=
  {| body_queryText := Some "rice yield"; body_location := Some "Kerala";
     body_crop := Some "rice"; body_farmerId := Some "f1";
     body_language := None; body_season := None;
     file_image := None; file_audio := None |}.

(** A severe finding that the knowledge base does not list for banana. *)
Definition bananaBlight : ImageAnalysis :=
  {| img_disease := "Late Blight"; img_confidence := 0.89;
     symptoms := ["Visible blight patterns"; "Affected leaf areas"];
     severity := high |}.

Definition bananaContext : AiContext :=
  {| ctx_location := JStr "Kerala"; ctx_crop := JStr "banana";
     ctx_season := JStr "monsoon"; previousQueries := [];
     localWeather := getLocalWeather "Kerala"; cropCalendar := None |}.

(** A language result classified as a question about schemes. *)
Definition schemeQuestion : NluData :=
  {| originalText := "any subsidy scheme"; translatedText := None;
     entities := noEntities; intent := scheme_info; nlu_confidence := 0.85 |}.

(** The first pesticide that the knowledge base lists for each crop. *)
Definition firstTreatments : list (string * string) :=
  [ ("banana", "Copper oxychloride 0.3% or Mancozeb 0.2%");
    ("rice", "Tricyclazole 0.06% or Carbendazim 0.1%");
    ("tomato", "Metalaxyl + Mancozeb 0.2%") ].

(** Feedback on the id that the sample clock gives a record. *)
Definition knownFeedback : FeedbackBody :=
  {| body_queryId := VNum 1700000000000; body_rating := VNum 4;
     body_comments := VStr "helped"; body_isHelpful := VBool true |}.

(** Feedback on a query id that no record has. *)
Definition unknownFeedback : FeedbackBody :=
  {| body_queryId := VNum 42; body_rating := VNum 5;
     body_comments := VStr "thanks"; body_isHelpful := VBool true |}.

(** The language counts before any query is counted. *)
Definition noLanguageCounted : gmap string nat :=
  <["en" := 0%nat]> (<["ml" := 0%nat]> (<["hi" := 0%nat]> (<["other" := 0%nat]> ∅))).

(** ** Tactics *)

(** One step through a match on a string literal: split the string, or the
    bit, that the match looks at. *)
Ltac literal_step :=
  match goal with
  | |- context [match ?s with EmptyString => _ | String _ _ => _ end] =>
      is_var s; destruct s as [|[? ? ? ? ? ? ? ?] ?]; try reflexivity
  | |- context [if ?b then _ else _] => is_var b; destruct b; try reflexivity
  end.

(** * Properties *)

(** ** Strings *)

Lemma includes_unfold text pat :
  includes text pat =
  if String.prefix pat text then true
  else match text with
       | EmptyString => false
       | String _ rest => includes rest pat
       end.
Proof. destruct text; reflexivity. Qed.

Lemma prefix_append_l pat : forall text more,
  String.prefix pat text = true -> String.prefix pat (text +:+ more) = true.
Proof.
  induction pat as [|c pat IH]; intros text more H.
  - now destruct (text +:+ more).
  - destruct text as [|d text]; simpl in *; [discriminate|].
    destruct (ascii_dec c d); [auto | discriminate].
Qed.

Lemma includes_append_l text : forall pat more,
  includes text pat = true -> includes (text +:+ more) pat = true.
Proof.
  induction text as [|c text IH]; intros pat more H;
    rewrite includes_unfold in H; rewrite includes_unfold.
  - destruct (String.prefix pat EmptyString) eqn:E; [|discriminate].
    now rewrite (prefix_append_l _ _ more E).
  - destruct (String.prefix pat (String c text)) eqn:E.
    + now rewrite (prefix_append_l _ _ more E).
    + change (String c text +:+ more) with (String c (text +:+ more)).
      destruct (String.prefix pat (String c (text +:+ more))); auto.
Qed.

Lemma includes_append_r before : forall text pat,
  includes text pat = true -> includes (before +:+ text) pat = true.
Proof.
  induction before as [|c before IH]; intros text pat H; [exact H|].
  change (String c before +:+ text) with (String c (before +:+ text)).
  rewrite includes_unfold.
  destruct (String.prefix pat (String c (before +:+ text))); auto.
Qed.

(** ** Numbers *)

Lemma lt_spec (x y : Q) : lt x y = true <-> (x < y)%Q.
Proof.
  unfold lt. rewrite negb_true_iff. split.
  - intros H. apply Qnot_le_lt. intros Hle.
    apply Qle_bool_iff in Hle. congruence.
  - intros H. destruct (Qle_bool y x) eqn:E; [|reflexivity].
    apply Qle_bool_iff in E. exfalso. exact (Qlt_not_le _ _ H E).
Qed.

(** ** Season default *)

Lemma seasonOfMonth_cases (month : Z) :
  seasonOfMonth month =
  if (6 <=? month) && (month <=? 9) then "monsoon" else "pre-monsoon".
Proof.
  unfold seasonOfMonth.
  rewrite !Z.geb_leb.
  destruct (6 <=? month) eqn:H6, (month <=? 9) eqn:H9; simpl; try reflexivity;
    destruct (10 <=? month) eqn:H10, (month <=? 2) eqn:H2; simpl; try reflexivity;
    apply Z.leb_le in H10, H2; lia.
Qed.

(** C3 (the code departs from the claim): the test for the post-monsoon
    months, [month >= 10 && month <= 2], holds for no month, so the default
    season is "monsoon" for the months 6 to 9 and "pre-monsoon" for every
    other month; the months 10, 11, 12, 1 and 2 get "pre-monsoon", and
    November (getMonth = 10) is one of them. *)
Theorem default_season_never_post_monsoon :
  (forall month : Z,
     seasonOfMonth month =
     if (6 <=? month) && (month <=? 9) then "monsoon" else "pre-monsoon") /\
  Forall (fun month => seasonOfMonth month = "pre-monsoon") [10; 11; 12; 1; 2] /\
  getCurrentSeason {| now := 0; getMonth := 10 |} = "pre-monsoon".
Proof.
  split; [exact seasonOfMonth_cases|].
  split; [|reflexivity].
  repeat constructor.
Qed.

(** ** Natural language understanding *)

Lemma processNaturalLanguage_ml (text : string) :
  processNaturalLanguage text "ml" =
  NluOk {| originalText := translateMalayalam text;
           translatedText := Some (translateMalayalam text);
           entities := extractEntities (toLowerCase text);
           intent := classifyIntent (translateMalayalam text);
           nlu_confidence := 0.85 |}.
Proof. reflexivity. Qed.

(** C5 (the code departs from the claim): for language "ml" the intent is
    classified on the translated text, which is also what [translatedText]
    records, but the entities are extracted from the lower-cased text as it
    was before translation.  On the first phrase of the phrase table the
    translation is "banana leaf spot", whose entities would be the crop
    "banana" and the disease "spot", and the pipeline returns no entity. *)
Theorem malayalam_entities_precede_translation :
  (forall text : string,
     processNaturalLanguage text "ml" =
     NluOk {| originalText := translateMalayalam text;
              translatedText := Some (translateMalayalam text);
              entities := extractEntities (toLowerCase text);
              intent := classifyIntent (translateMalayalam text);
              nlu_confidence := 0.85 |}) /\
  translateMalayalam "വാഴയില് പുള്ളി" = "banana leaf spot" /\
  processNaturalLanguage "വാഴയില് പുള്ളി" "ml" =
    NluOk {| originalText := "banana leaf spot";
             translatedText := Some "banana leaf spot";
             entities := noEntities;
             intent := general_query;
             nlu_confidence := 0.85 |} /\
  extractEntities "banana leaf spot" =
    {| ent_crop := JStr "banana"; ent_disease := JStr "spot"; ent_pest := JNull;
       ent_location := JNull; ent_season := JNull |}.
Proof.
  split; [exact processNaturalLanguage_ml|].
  repeat split; vm_compute; reflexivity.
Qed.

(** ** Advice generation and the escalation policy *)

Lemma generateAdviceBody_flag st clock query input farmerHistory advice :
  generateAdviceBody st clock query input farmerHistory = Ok advice ->
  shouldEscalate advice = lt (confidence advice) 0.6.
Proof.
  unfold generateAdviceBody. intros H.
  destruct (getCropCalendar _ _) as [calendar|]; simpl in H; [|discriminate].
  match type of H with
  | mbind _ ?m = _ => destruct m as [[text c]|]; simpl in H; [|discriminate]
  end.
  injection H as <-. reflexivity.
Qed.

Lemma generateAdvice_flag st clock query input farmerHistory :
  match generateAdvice st clock query input farmerHistory with
  | AdviceOk advice => shouldEscalate advice = lt (confidence advice) 0.6
  | AdviceError _ => True
  end.
Proof.
  unfold generateAdvice.
  destruct (generateAdviceBody _ _ _ _ _) eqn:E; [|exact I].
  exact (generateAdviceBody_flag _ _ _ _ _ _ E).
Qed.

Lemma needsEscalation_confidence response :
  flagAgrees response ->
  needsEscalation response = true <->
  exists c, adviceConfidence response = Some c /\ (c < 0.6)%Q.
Proof.
  destruct response as [advice|e]; simpl; intros Hflag.
  - rewrite Hflag, orb_diag, lt_spec. split.
    + intros H. eauto.
    + intros (c & [= <-] & H). exact H.
  - split; [discriminate|]. intros (c & [=] & _).
Qed.

Lemma needsEscalation_flag response :
  flagAgrees response ->
  needsEscalation response = adviceFlag response.
Proof.
  destruct response as [advice|e]; simpl; [|reflexivity].
  intros ->. apply orb_diag.
Qed.

Lemma escalate_cases st clock farmerId processedQuery nlp image response location crop :
  let result :=
    escalate st clock farmerId processedQuery nlp image response location crop in
  (needsEscalation response = true /\ fst result = escalated /\
   farmers (snd result) = farmers st /\ queries (snd result) = queries st /\
   feedback (snd result) = feedback st /\
   exists record,
     escalations (snd result) = escalations st ++ [record] /\
     aiResponse record = response /\ priority record = priorityOf response) \/
  (needsEscalation response = false /\ fst result = answered /\ snd result = st).
Proof.
  unfold escalate. destruct (needsEscalation response); simpl.
  - left. repeat split. eexists. repeat split.
  - right. repeat split.
Qed.

(** The two ways a query request ends: the 500 reply, when it carries audio,
    with the stores as they were; or the JSON reply, after the escalation
    block and [recordQuery]. *)
Lemma queryRoute_cases st clock req :
  (is_Some (file_audio req) /\
   queryRoute st clock req =
     (ServerError "Failed to process your query" "Assignment to constant variable.", st)) \/
  (file_audio req = None /\
   exists resp processedQuery nlp image response,
     let farmerId := default "anonymous" (body_farmerId req) in
     let location := default "" (body_location req) in
     let crop := default "" (body_crop req) in
     let query :=
       {| queryText := processedQuery; q_farmerId := farmerId; q_crop := crop;
          q_location := location; q_season := default "" (body_season req);
          q_language := None |} in
     let result :=
       escalate st clock farmerId processedQuery nlp image response location crop in
     queryRoute st clock req = (Json resp, recordQuery (snd result) clock query response) /\
     flagAgrees response /\
     status resp = fst result /\
     resp_confidence resp = adviceConfidence response /\
     answer resp = match response with
                   | AdviceOk advice => Some (mainAdvice advice)
                   | AdviceError _ => None
                   end).
Proof.
  unfold queryRoute, queryRouteBody.
  destruct (file_audio req) as [audioPath|].
  - left. split; [eauto | reflexivity].
  - right. split; [reflexivity|].
    cbv beta iota zeta delta [mbind outcome_bind].
    eexists _, _, _, _, _. split; [reflexivity|].
    split; [apply generateAdvice_flag|].
    repeat split.
Qed.

Lemma app_singleton_neq {A : Type} (l : list A) (x : A) : l ++ [x] <> l.
Proof.
  intros H. apply (f_equal (@length A)) in H.
  rewrite length_app in H. simpl in H. lia.
Qed.

(** C1: a query request that is answered with JSON appends one record to the
    query log, and its status is "escalated" exactly when the confidence of
    the recorded advice result is below 0.6, exactly when the escalation flag
    of that result is set, and exactly when one escalation record (holding
    that result) is appended; otherwise the status is "answered" and the
    escalation list is as before.  A request that ends in the 500 reply
    leaves all stores as they were. *)
Theorem escalated_iff_confidence_below_threshold st clock req :
  match queryRoute st clock req with
  | (Json resp, st') =>
      exists record,
        queries st' = queries st ++ [record] /\
        resp_confidence resp = adviceConfidence (rec_response record) /\
        (status resp = escalated <->
         exists c, adviceConfidence (rec_response record) = Some c /\ (c < 0.6)%Q) /\
        (status resp = escalated <-> adviceFlag (rec_response record) = true) /\
        (status resp = escalated <->
         exists e, escalations st' = escalations st ++ [e] /\
                   aiResponse e = rec_response record) /\
        (status resp = answered <-> escalations st' = escalations st) /\
        (status resp = escalated \/ status resp = answered)
  | (ServerError _ _, st') => st' = st
  end.
Proof.
  destruct (queryRoute_cases st clock req)
    as [[_ ->] | [_ (resp & processedQuery & nlp & image & response & H)]];
    [reflexivity|].
  cbv zeta in H. destruct H as (-> & Hflag & Hstatus & Hconf & _).
  eexists. split.
  { unfold recordQuery at 1. cbn [queries]. f_equal.
    pose proof (escalate_cases st clock (default "anonymous" (body_farmerId req))
                  processedQuery nlp image response (default "" (body_location req))
                  (default "" (body_crop req))) as He.
    cbv zeta in He.
    destruct He as [(_ & _ & _ & Hq & _) | (_ & _ & Hq)]; [exact Hq | now rewrite Hq]. }
  cbn [rec_response]. rewrite Hstatus, Hconf.
  pose proof (needsEscalation_confidence response Hflag) as Hc.
  pose proof (needsEscalation_flag response Hflag) as Hf.
  unfold recordQuery. cbn [escalations].
  pose proof (escalate_cases st clock (default "anonymous" (body_farmerId req))
                processedQuery nlp image response (default "" (body_location req))
                (default "" (body_crop req))) as He.
  cbv zeta in He.
  destruct He as [(Hn & -> & _ & _ & _ & e & -> & He & _) | (Hn & -> & Hst)];
    [|rewrite Hst].
  - split; [reflexivity|]. split; [tauto|]. split; [rewrite <- Hf; tauto|].
    split; [split; eauto|]. split; [|auto].
    split; [discriminate|]. intros Habs. now apply app_singleton_neq in Habs.
  - split; [reflexivity|]. rewrite Hn in Hc, Hf. rewrite <- Hf.
    split; [rewrite <- Hc; split; discriminate|].
    split; [split; discriminate|].
    split; [|split; [tauto|auto]].
    split; [discriminate|]. intros (e & Habs & _).
    symmetry in Habs. now apply app_singleton_neq in Habs.
Qed.

Lemma priorityOf_confidence response c :
  adviceConfidence response = Some c ->
  (priorityOf response = PriorityHigh <-> (c < 0.4)%Q) /\
  (priorityOf response = PriorityMedium <-> ~ (c < 0.4)%Q).
Proof.
  destruct response as [advice|e]; simpl; [|discriminate].
  intros [= <-]. rewrite <- lt_spec.
  destruct (lt (confidence advice) 0.4); split; split;
    try reflexivity; try discriminate; try congruence; intros H; now destruct H.
Qed.

Lemma needsEscalation_advice response :
  needsEscalation response = true -> exists c, adviceConfidence response = Some c.
Proof. destruct response; simpl; [eauto | discriminate]. Qed.

(** C7: whenever the escalation block escalates an advice result, the
    escalation record that it appends holds that result and has priority
    "high" exactly when the confidence of the result is below 0.4, and
    "medium" exactly when it is not; every advice result with a confidence
    below 0.6 is escalated so; the same holds of the record that an
    escalated query request appends; and a confidence of 0.45 gives priority
    "medium". *)
Theorem escalation_priority_by_confidence :
  (forall st clock farmerId processedQuery nlp image response location crop,
     fst (escalate st clock farmerId processedQuery nlp image response location crop)
       = escalated ->
     exists e c,
       escalations (snd (escalate st clock farmerId processedQuery nlp image response
                                  location crop)) = escalations st ++ [e] /\
       aiResponse e = response /\
       adviceConfidence response = Some c /\
       (priority e = PriorityHigh <-> (c < 0.4)%Q) /\
       (priority e = PriorityMedium <-> ~ (c < 0.4)%Q)) /\
  (forall st clock farmerId processedQuery nlp image advice location crop,
     (confidence advice < 0.6)%Q ->
     fst (escalate st clock farmerId processedQuery nlp image (AdviceOk advice)
                   location crop) = escalated) /\
  (forall st clock req resp st',
     queryRoute st clock req = (Json resp, st') ->
     status resp = escalated ->
     exists e c,
       escalations st' = escalations st ++ [e] /\
       resp_confidence resp = Some c /\
       adviceConfidence (aiResponse e) = Some c /\
       (priority e = PriorityHigh <-> (c < 0.4)%Q) /\
       (priority e = PriorityMedium <-> ~ (c < 0.4)%Q)) /\
  (forall st clock farmerId processedQuery nlp image advice location crop,
     (confidence advice == 0.45)%Q ->
     let result :=
       escalate st clock farmerId processedQuery nlp image (AdviceOk advice)
                location crop in
     fst result = escalated /\
     exists e, escalations (snd result) = escalations st ++ [e] /\
               priority e = PriorityMedium).
Proof.
  split; [|split; [|split]].
  - intros st clock farmerId processedQuery nlp image response location crop Hesc.
    pose proof (escalate_cases st clock farmerId processedQuery nlp image response
                  location crop) as He.
    cbv zeta in He.
    destruct He as [(Hn & _ & _ & _ & _ & e & He & Hai & Hp) | (_ & Hans & _)];
      [|congruence].
    destruct (needsEscalation_advice _ Hn) as [c Hc].
    exists e, c. rewrite Hp. repeat split; try assumption;
      apply (priorityOf_confidence _ _ Hc).
  - intros st clock farmerId processedQuery nlp image advice location crop Hc.
    apply lt_spec in Hc. unfold escalate. cbn [needsEscalation].
    now rewrite Hc, orb_true_r.
  - intros st clock req resp0 st' Hroute.
    destruct (queryRoute_cases st clock req)
      as [[_ Herr] | [_ (resp & processedQuery & nlp & image & response & H)]];
      [congruence|].
    cbv zeta in H. destruct H as (Hjson & _ & Hstatus & Hconf & _).
    rewrite Hjson in Hroute. injection Hroute as <- <-.
    intros Hesc. rewrite Hstatus in Hesc.
    pose proof (escalate_cases st clock (default "anonymous" (body_farmerId req))
                  processedQuery nlp image response (default "" (body_location req))
                  (default "" (body_crop req))) as He.
    cbv zeta in He.
    destruct He as [(Hn & _ & _ & _ & _ & e & He & Hai & Hp) | (_ & Hans & _)];
      [|congruence].
    destruct (needsEscalation_advice _ Hn) as [c Hc].
    exists e, c. unfold recordQuery. cbn [escalations].
    rewrite Hconf, Hai, Hp. repeat split; try assumption;
      apply (priorityOf_confidence _ _ Hc).
  - intros st clock farmerId processedQuery nlp image advice location crop Hc.
    assert (Hlow : lt (confidence advice) 0.6 = true)
      by (apply lt_spec; rewrite Hc; reflexivity).
    assert (Hhigh : lt (confidence advice) 0.4 = false).
    { destruct (lt (confidence advice) 0.4) eqn:E; [|reflexivity].
      apply lt_spec in E. rewrite Hc in E. discriminate E. }
    unfold escalate. cbn [needsEscalation]. rewrite Hlow, orb_true_r.
    cbn [fst snd escalations]. split; [reflexivity|].
    eexists. split; [reflexivity|]. cbn [priority priorityOf]. now rewrite Hhigh.
Qed.

(** ** Failures inside a request *)

Lemma generateAdvice_inherited st clock query input farmerHistory text :
  getProp cropDatabase (in_crop input) = Inherited text ->
  generateAdvice st clock query input farmerHistory =
  AdviceError "Could not generate advice".
Proof.
  intros H. unfold generateAdvice, generateAdviceBody, getCropCalendar.
  now rewrite H.
Qed.

(** C2 (the code departs from the claim): a request that carries an audio
    file always ends in the 500 reply "Failed to process your query", with
    nothing stored, because the voice branch assigns to the constant
    [language]; and when advice generation fails inside (a crop that is a key
    inherited from [Object.prototype], such as "constructor"), the reply has
    status "answered" with no answer and no confidence, and nothing is
    escalated.  Neither outcome is the generic 0.3 answer with escalation. *)
Theorem audio_and_advice_failures_not_degraded :
  (forall st clock req,
     is_Some (file_audio req) ->
     queryRoute st clock req =
     (ServerError "Failed to process your query" "Assignment to constant variable.", st)) /\
  (forall st clock req crop text,
     file_audio req = None ->
     body_crop req = Some crop ->
     getProp cropDatabase crop = Inherited text ->
     exists resp st',
       queryRoute st clock req = (Json resp, st') /\
       status resp = answered /\ answer resp = None /\ resp_confidence resp = None /\
       escalations st' = escalations st).
Proof.
  split.
  - intros st clock req [audioPath H].
    unfold queryRoute, queryRouteBody. now rewrite H.
  - intros st clock req crop text Haudio Hcrop Hkey.
    unfold queryRoute, queryRouteBody. rewrite Haudio, Hcrop.
    cbv beta iota zeta delta [mbind outcome_bind default].
    rewrite (generateAdvice_inherited _ _ _ _ _ text) by exact Hkey.
    eexists _, _. split; [reflexivity|]. repeat split.
Qed.

(** ** Advice for an image finding *)

Lemma generateDiseaseAdvice_urgent image context cropInfo :
  severity image = high ->
  getProp cropDatabase (toText (ctx_crop context)) = Own cropInfo ->
  exists advice,
    generateDiseaseAdvice image context = Ok advice /\
    includes advice urgencyPhrase = true.
Proof.
  intros Hsev Hcrop. unfold generateDiseaseAdvice. rewrite Hcrop, Hsev.
  eexists. split; [reflexivity|].
  cbv zeta.
  destruct (truthy (ctx_season context)); [apply includes_append_l|];
    do 3 apply includes_append_l; apply includes_append_r; reflexivity.
Qed.

(** C6, as the code has it: when the request carries an image finding whose
    disease is not "Unknown condition" and whose severity is "high", and the
    crop of the context (the crop of the request or, without one, the crop
    found in the text) is a crop of the knowledge base, advice generation
    succeeds, its confidence is that of the finding, and its main advice
    contains the urgency sentence. *)
Theorem severe_finding_on_known_crop_is_urgent
    st clock query input farmerHistory image cropInfo :
  in_imageAnalysis input = Some image ->
  img_disease image <> "Unknown condition" ->
  severity image = high ->
  getProp cropDatabase (toText (por (JStr (in_crop input)) (nlpCrop (in_nlp input))))
    = Own cropInfo ->
  exists advice,
    generateAdvice st clock query input farmerHistory = AdviceOk advice /\
    confidence advice = img_confidence image /\
    includes (mainAdvice advice) urgencyPhrase = true.
Proof.
  intros Himage Hdisease Hsev Hcrop.
  unfold generateAdvice, generateAdviceBody. rewrite Himage.
  apply String.eqb_neq in Hdisease. rewrite Hdisease.
  assert (Hcal : exists calendar,
             getCropCalendar (in_crop input) (in_location input) = Ok calendar).
  { unfold getCropCalendar, por, truthy in *.
    destruct (String.eqb (in_crop input) "") eqn:E; simpl in Hcrop.
    - apply String.eqb_eq in E. rewrite E. eauto.
    - rewrite Hcrop. eauto. }
  destruct Hcal as [calendar ->].
  cbv beta iota zeta delta [mbind outcome_bind].
  match goal with
  | |- context [generateDiseaseAdvice image ?ctx] =>
      destruct (generateDiseaseAdvice_urgent image ctx cropInfo Hsev Hcrop)
        as (advice & -> & Hurgent)
  end.
  eexists. split; [reflexivity|]. split; [reflexivity | exact Hurgent].
Qed.

(** ** Farmer profiles *)

Lemma grewByAtMostOne_NoDup before after :
  grewByAtMostOne before after -> NoDup before -> NoDup after.
Proof.
  intros [-> | (crop & Hnew & ->)] Hnodup; [exact Hnodup|].
  apply NoDup_app. split; [exact Hnodup|]. split; [|apply NoDup_singleton].
  intros x Hx Hin. apply list_elem_of_singleton in Hin. now subst.
Qed.

Lemma recordQuery_crops st clock query response farmerId :
  grewByAtMostOne (cropsOf st farmerId)
                  (cropsOf (recordQuery st clock query response) farmerId).
Proof.
  unfold cropsOf, recordQuery. cbn [farmers].
  destruct (decide (q_farmerId query = farmerId)) as [<- | Hne].
  - rewrite lookup_insert_eq. cbn [crops].
    destruct (farmers st !! q_farmerId query) as [profile|]; cbn [crops newProfile];
      destruct (String.eqb (q_crop query) ""); cbn [negb andb];
      try (left; reflexivity).
    + destruct (bool_decide (q_crop query ∈ crops profile)) eqn:E; cbn [negb];
        [left; reflexivity|].
      right. exists (q_crop query). split; [|reflexivity].
      now apply bool_decide_eq_false in E.
    + destruct (bool_decide (q_crop query ∈ [])) eqn:E; cbn [negb];
        [left; reflexivity|].
      right. exists (q_crop query). split; [apply not_elem_of_nil | reflexivity].
  - rewrite lookup_insert_ne by exact Hne. left. reflexivity.
Qed.

Lemma escalate_farmers st clock farmerId processedQuery nlp image response location crop :
  farmers (snd (escalate st clock farmerId processedQuery nlp image response
                         location crop)) = farmers st.
Proof. unfold escalate. now destruct (needsEscalation response). Qed.

Lemma step_crops st op farmerId :
  grewByAtMostOne (cropsOf st farmerId) (cropsOf (step st op) farmerId).
Proof.
  destruct op as [clock req | clock body]; cbn [step].
  - destruct (queryRoute_cases st clock req)
      as [[_ ->] | [_ (resp & processedQuery & nlp & image & response & H)]];
      [left; reflexivity|].
    cbv zeta in H. destruct H as (-> & _). cbn [snd].
    match goal with
    | |- grewByAtMostOne _ (cropsOf (recordQuery ?st1 clock ?q response) farmerId) =>
        pose proof (recordQuery_crops st1 clock q response farmerId) as Hgrow;
        replace (cropsOf st farmerId) with (cropsOf st1 farmerId);
        [exact Hgrow | unfold cropsOf; now rewrite escalate_farmers]
    end.
  - left. reflexivity.
Qed.

Lemma fold_step_NoDup ops : forall st farmerId,
  NoDup (cropsOf st farmerId) -> NoDup (cropsOf (fold_left step ops st) farmerId).
Proof.
  induction ops as [|op ops IH]; intros st farmerId H; [exact H|].
  cbn [fold_left]. apply IH.
  exact (grewByAtMostOne_NoDup _ _ (step_crops st op farmerId) H).
Qed.

Lemma fold_recordQuery_NoDup calls : forall st farmerId,
  NoDup (cropsOf st farmerId) ->
  NoDup (cropsOf (fold_left (fun st '(clock, query, response) =>
                               recordQuery st clock query response) calls st)
                 farmerId).
Proof.
  induction calls as [|[[clock query] response] calls IH]; intros st farmerId H;
    [exact H|].
  cbn [fold_left]. apply IH.
  exact (grewByAtMostOne_NoDup _ _ (recordQuery_crops st clock query response farmerId) H).
Qed.

(** C10: for every farmer id, one call of [recordQuery], and one request of
    any kind, leaves the crops of the profile as they were or appends one
    crop that was not among them; and after any list of calls of
    [recordQuery], or any list of requests, from the start of the process the
    crops of the profile hold no duplicate. *)
Theorem farmer_crops_grow_without_duplicates :
  (forall st clock query response farmerId,
     let before := cropsOf st farmerId in
     let after := cropsOf (recordQuery st clock query response) farmerId in
     after = before \/ (exists crop, (crop ∉ before) /\ after = before ++ [crop])) /\
  (forall st op farmerId,
     let before := cropsOf st farmerId in
     let after := cropsOf (step st op) farmerId in
     after = before \/ (exists crop, (crop ∉ before) /\ after = before ++ [crop])) /\
  (forall calls farmerId, NoDup (cropsOf (recordAll calls) farmerId)) /\
  (forall ops farmerId, NoDup (cropsOf (run ops) farmerId)).
Proof.
  split; [exact recordQuery_crops|].
  split; [exact step_crops|].
  split.
  - intros calls farmerId. apply fold_recordQuery_NoDup. constructor.
  - intros ops farmerId. apply fold_step_NoDup. constructor.
Qed.

(** ** Feedback *)

Lemma findIndex_none {A : Type} (p : A -> bool) (l : list A) :
  Forall (fun x => p x = false) l -> findIndex p l = None.
Proof.
  induction 1 as [|x l Hx _ IH]; [reflexivity|].
  cbn [findIndex]. now rewrite Hx, IH.
Qed.

(** C4, as the code has it: feedback whose query id equals the id of no
    record leaves the query log, the farmer profiles and the escalation list
    as they were, and still appends the feedback entry to the feedback log;
    the reply is the same success message. *)
Theorem feedback_for_unknown_query_is_logged st clock body :
  Forall (fun q => strictEq (rec_id q) (body_queryId body) = false) (queries st) ->
  fst (feedbackRoute st clock body) = Json "Feedback recorded successfully" /\
  queries (snd (feedbackRoute st clock body)) = queries st /\
  farmers (snd (feedbackRoute st clock body)) = farmers st /\
  escalations (snd (feedbackRoute st clock body)) = escalations st /\
  feedback (snd (feedbackRoute st clock body)) =
    feedback st ++ [ {| fb_queryId := body_queryId body; rating := body_rating body;
                        comments := body_comments body; isHelpful := body_isHelpful body;
                        fb_timestamp := now clock |} ].
Proof.
  intros H. unfold feedbackRoute. cbn [fst snd queries farmers escalations feedback].
  rewrite (findIndex_none _ _ H). repeat split.
Qed.

(** ** Analytics *)

Lemma escalate_queries st clock farmerId processedQuery nlp image response location crop :
  queries (snd (escalate st clock farmerId processedQuery nlp image response
                         location crop)) = queries st.
Proof. unfold escalate. now destruct (needsEscalation response). Qed.

Lemma escalate_escalations st clock farmerId processedQuery nlp image response location crop :
  (length (escalations (snd (escalate st clock farmerId processedQuery nlp image
                                      response location crop)))
   <= S (length (escalations st)))%nat.
Proof.
  unfold escalate. destruct (needsEscalation response); cbn [snd escalations].
  - rewrite length_app. simpl. lia.
  - lia.
Qed.

Lemma step_noLanguage st op :
  Forall noLanguage (queries st) -> Forall noLanguage (queries (step st op)).
Proof.
  intros H. destruct op as [clock req | clock body]; cbn [step].
  - destruct (queryRoute_cases st clock req)
      as [[_ ->] | [_ (resp & processedQuery & nlp & image & response & Hr)]];
      [exact H|].
    cbv zeta in Hr. destruct Hr as (-> & _). cbn [snd].
    unfold recordQuery. cbn [queries]. rewrite escalate_queries.
    apply Forall_app. split; [exact H|]. repeat constructor.
  - unfold feedbackRoute. cbn [snd queries].
    destruct (findIndex _ _); [|exact H].
    apply Forall_alter; [exact H|]. intros q _ Hq. exact Hq.
Qed.

Lemma step_escalations st op :
  (length (escalations st) <= length (queries st))%nat ->
  (length (escalations (step st op)) <= length (queries (step st op)))%nat.
Proof.
  intros H. destruct op as [clock req | clock body]; cbn [step].
  - destruct (queryRoute_cases st clock req)
      as [[_ ->] | [_ (resp & processedQuery & nlp & image & response & Hr)]];
      [exact H|].
    cbv zeta in Hr. destruct Hr as (-> & _). cbn [snd].
    unfold recordQuery. cbn [queries escalations].
    rewrite escalate_queries, length_app. simpl.
    pose proof (escalate_escalations st clock (default "anonymous" (body_farmerId req))
                  processedQuery nlp image response (default "" (body_location req))
                  (default "" (body_crop req))).
    lia.
  - unfold feedbackRoute. cbn [snd queries escalations].
    destruct (findIndex _ _); [rewrite length_alter|]; exact H.
Qed.

Lemma run_invariants ops : forall st,
  Forall noLanguage (queries st) ->
  (length (escalations st) <= length (queries st))%nat ->
  Forall noLanguage (queries (fold_left step ops st)) /\
  (length (escalations (fold_left step ops st))
   <= length (queries (fold_left step ops st)))%nat.
Proof.
  induction ops as [|op ops IH]; intros st Hl He; [split; assumption|].
  cbn [fold_left]. apply IH; [now apply step_noLanguage | now apply step_escalations].
Qed.

Lemma countLanguage_all_en (log : list QueryRecord) :
  forall (langCount : gmap string nat) (n : nat),
    Forall noLanguage log ->
    langCount !! "en" = Some n ->
    fold_left countLanguage log langCount = <["en" := (n + length log)%nat]> langCount.
Proof.
  induction log as [|q log IH]; intros langCount n Hlog Hen.
  - cbn. rewrite Nat.add_0_r. symmetry. now apply insert_id.
  - apply Forall_cons in Hlog as [Hq Hlog]. cbn [fold_left].
    unfold countLanguage at 2. rewrite Hq, Hen. cbn [default].
    rewrite (IH _ (n + 1)%nat Hlog) by apply lookup_insert_eq.
    rewrite insert_insert_eq. f_equal. cbn [length]. lia.
Qed.

(** C9 (the code departs from the claim): the query object that the route
    hands to [recordQuery] carries no language, so after any list of requests
    every recorded query is counted under "en", whatever its language was,
    and the counts of "ml", "hi" and "other" stay 0.  After one question asked
    in Malayalam the distribution is en: 1, ml: 0. *)
Theorem language_distribution_counts_every_query_as_en :
  (forall ops,
     getLanguageDistribution (run ops) =
     <["en" := length (queries (run ops))]> noLanguageCounted) /\
  (exists resp st',
     queryRoute emptyStore sampleClock malayalamRequest = (Json resp, st') /\
     resp_language resp = "ml" /\
     getLanguageDistribution st' = <["en" := 1%nat]> noLanguageCounted /\
     getLanguageDistribution st' !! "ml" = Some 0%nat).
Proof.
  split.
  - intros ops. unfold getLanguageDistribution.
    destruct (run_invariants ops emptyStore) as [Hlang _];
      [constructor | cbn; lia |].
    fold (run ops) in Hlang.
    rewrite (countLanguage_all_en _ _ 0%nat Hlang) by reflexivity.
    unfold noLanguageCounted. now rewrite insert_insert_eq.
  - eexists _, _. split; [reflexivity|]. split; [reflexivity|].
    split; vm_compute; reflexivity.
Qed.

(** C8 (the code departs from the claim): with an empty query log, and so
    with no escalation, the analytics reply carries the text "NaN" both as
    escalation rate and as average confidence, the result of dividing zero
    by zero; and after any list of requests an empty query log comes with an
    empty escalation list. *)
Theorem analytics_of_empty_log_is_NaN :
  (forall st,
     queries st = [] -> escalations st = [] ->
     exists a,
       analyticsRoute st = Json a /\ totalQueries a = 0%nat /\
       escalationRate a = "NaN" /\ avgConfidence a = "NaN") /\
  (forall ops, queries (run ops) = [] -> escalations (run ops) = []) /\
  (exists a,
     analyticsRoute emptyStore = Json a /\
     escalationRate a = "NaN" /\ avgConfidence a = "NaN").
Proof.
  split; [|split].
  - intros st Hq He. unfold analyticsRoute. rewrite Hq, He.
    eexists. split; [reflexivity|]. repeat split.
  - intros ops Hq.
    destruct (run_invariants ops emptyStore) as [_ Hle];
      [constructor | cbn; lia |].
    fold (run ops) in Hle. rewrite Hq in Hle.
    destruct (escalations (run ops)); [reflexivity | cbn in Hle; lia].
  - eexists. split; [reflexivity|]. split; reflexivity.
Qed.

(** * Concrete runs *)

(** C4, the claim as stated fails: after one recorded query, feedback on the
    id 42, which no record has, makes the feedback log grow from empty to one
    entry. *)
Lemma unknown_feedback_grows_feedback_log :
  Forall (fun q => strictEq (rec_id q) (body_queryId unknownFeedback) = false)
         (queries (run [PostQuery sampleClock tomatoRequest])) /\
  feedback (run [PostQuery sampleClock tomatoRequest]) = [] /\
  feedback (snd (feedbackRoute (run [PostQuery sampleClock tomatoRequest])
                               sampleClock unknownFeedback)) =
    [ {| fb_queryId := VNum 42; rating := VNum 5; comments := VStr "thanks";
         isHelpful := VBool true; fb_timestamp := 1700000000000 |} ].
Proof.
  split; [|split; reflexivity].
  vm_compute. repeat constructor.
Qed.

(** The same run as an instance of the amended C4. *)
Lemma feedback_for_unknown_query_witness :
  Forall (fun q => strictEq (rec_id q) (body_queryId unknownFeedback) = false)
         (queries (run [PostQuery sampleClock tomatoRequest])) /\
  queries (snd (feedbackRoute (run [PostQuery sampleClock tomatoRequest])
                              sampleClock unknownFeedback)) =
    queries (run [PostQuery sampleClock tomatoRequest]).
Proof.
  assert (H : Forall (fun q => strictEq (rec_id q) (body_queryId unknownFeedback) = false)
                     (queries (run [PostQuery sampleClock tomatoRequest])))
    by (vm_compute; repeat constructor).
  split; [exact H|].
  exact (proj1 (proj2 (feedback_for_unknown_query_is_logged
                         (run [PostQuery sampleClock tomatoRequest])
                         sampleClock unknownFeedback H))).
Defined.

(** C6, the claim as stated fails: advice generation is handed the finding
    "Late Blight", which is not the sentinel and has severity "high", for
    the crop "coconut", which the knowledge base does not hold; the advice
    is the general recommendation, which holds no urgency sentence. *)
Lemma severe_finding_on_unknown_crop_not_urgent :
  severity severeBlight = high /\
  String.eqb (img_disease severeBlight) "Unknown condition" = false /\
  getProp cropDatabase "coconut" = Absent /\
  exists advice,
    generateAdvice emptyStore sampleClock coconutQuery coconutBlightInput []
      = AdviceOk advice /\
    mainAdvice advice =
      "Detected Late Blight. General recommendation: Consult with local agricultural officer for crop-specific treatment." /\
    includes (mainAdvice advice) urgencyPhrase = false.
Proof.
  repeat split. eexists. split; [reflexivity|]. split; reflexivity.
Qed.

(** The amended C6 on the photo blight.jpg asked about tomato. *)
Lemma severe_finding_on_known_crop_witness :
  exists advice,
    generateAdvice emptyStore sampleClock tomatoBlightQuery tomatoBlightInput []
      = AdviceOk advice /\
    confidence advice = img_confidence (analyzeImage "uploads/blight.jpg" "tomato") /\
    includes (mainAdvice advice) urgencyPhrase = true.
Proof.
  refine (severe_finding_on_known_crop_is_urgent emptyStore sampleClock
            tomatoBlightQuery tomatoBlightInput []
            (analyzeImage "uploads/blight.jpg" "tomato")
            {| commonDiseases := ["late blight"; "early blight"; "bacterial wilt"];
               pests := ["whitefly"; "fruit borer"; "aphids"];
               seasons := {| plant := "Oct-Nov, Jan-Feb"; harvest := "Dec-Jan, Apr-May" |};
               pesticides :=
                 [ ("late blight", "Metalaxyl + Mancozeb 0.2%");
                   ("early blight", "Chlorothalonil 0.2%") ] |}
            _ _ _ _).
  - reflexivity.
  - apply String.eqb_neq. reflexivity.
  - reflexivity.
  - reflexivity.
Defined.

(** C7 on the advice for a faint leaf spot on banana, whose confidence is
    0.45: it is escalated with priority "medium". *)
Lemma escalation_priority_witness :
  adviceConfidence
    (generateAdvice emptyStore sampleClock bananaLeafSpotQuery bananaLeafSpotInput [])
    = Some 0.45%Q /\
  exists e,
    escalations
      (snd (escalate emptyStore sampleClock "anonymous" "" None (Some faintLeafSpot)
              (generateAdvice emptyStore sampleClock bananaLeafSpotQuery
                              bananaLeafSpotInput [])
              "" "banana")) = [e] /\
    priority e = PriorityMedium.
Proof.
  split; [reflexivity|].
  destruct (proj1 escalation_priority_by_confidence emptyStore sampleClock
              "anonymous" "" None (Some faintLeafSpot)
              (generateAdvice emptyStore sampleClock bananaLeafSpotQuery
                              bananaLeafSpotInput [])
              "" "banana" eq_refl)
    as (e & c & He & _ & Hc & _ & Hmedium).
  exists e. split; [exact He|]. apply Hmedium.
  vm_compute in Hc. injection Hc as <-. intros H. vm_compute in H. discriminate H.
Defined.

(** C2 on a voice note. *)
Lemma audio_request_witness :
  queryRoute emptyStore sampleClock voiceRequest =
  (ServerError "Failed to process your query" "Assignment to constant variable.",
   emptyStore).
Proof.
  apply (proj1 audio_and_advice_failures_not_degraded emptyStore sampleClock voiceRequest).
  exists "uploads/note.ogg". reflexivity.
Defined.

(** C8 at the start of the process. *)
Lemma analytics_of_empty_log_witness :
  exists a,
    analyticsRoute emptyStore = Json a /\ totalQueries a = 0%nat /\
    escalationRate a = "NaN" /\ avgConfidence a = "NaN".
Proof.
  apply (proj1 analytics_of_empty_log_is_NaN emptyStore); reflexivity.
Defined.

(** ** Scenarios *)

(** A text question about tomato is answered with confidence 0.85 and asks
    for a photo. *)
Example tomato_question_is_answered :
  exists resp st',
    queryRoute emptyStore sampleClock tomatoRequest = (Json resp, st') /\
    status resp = answered /\ resp_confidence resp = Some 0.85%Q /\
    answer resp =
      Some "For tomato disease issues in undefined, I recommend uploading a clear photo of the affected plant parts for accurate diagnosis." /\
    escalations st' = [].
Proof. eexists _, _. split; [reflexivity|]. repeat split. Qed.

(** The empty request is escalated with confidence 0.3 and priority high. *)
Example empty_request_is_escalated :
  exists resp st',
    queryRoute emptyStore sampleClock emptyRequest = (Json resp, st') /\
    status resp = escalated /\ resp_confidence resp = Some 0.3%Q /\
    map priority (escalations st') = [PriorityHigh].
Proof. eexists _, _. split; [reflexivity|]. repeat split. Qed.

(** A faint leaf spot on banana: the treatment is the one listed for leaf
    spot, the confidence is 0.45, and the escalation block files it with
    priority medium. *)
Example faint_leaf_spot_is_medium :
  exists advice,
    generateAdvice emptyStore sampleClock tomatoBlightQuery bananaLeafSpotInput []
      = AdviceOk advice /\
    includes (mainAdvice advice) "Copper oxychloride 0.3% or Mancozeb 0.2%" = true /\
    confidence advice = 0.45%Q /\
    map priority
      (escalations (snd (escalate emptyStore sampleClock "anonymous" "" None
                                  (Some faintLeafSpot) (AdviceOk advice) "" "banana")))
      = [PriorityMedium].
Proof. eexists. split; [reflexivity|]. repeat split. Qed.

(** Two questions about rice from the same farmer leave one crop. *)
Example rice_twice_is_one_crop :
  cropsOf (run [PostQuery sampleClock riceRequest; PostQuery sampleClock riceRequest])
          "f1" = ["rice"].
Proof. vm_compute. reflexivity. Qed.
(** * Further properties *)

(** ** Entities, intents and translation *)

Lemma scanWords_snoc words word text :
  scanWords (words ++ [word]) text =
  if includes text word then JStr word else scanWords words text.
Proof. unfold scanWords. now rewrite fold_left_app. Qed.

Lemma scanWords_lastOccurring words text :
  lastOccurring words text (scanWords words text).
Proof.
  induction words as [|word words IH] using rev_ind; [constructor|].
  rewrite scanWords_snoc. destruct (includes text word) eqn:E.
  - exists words, []. repeat split; [exact E | constructor].
  - destruct (scanWords words text) as [| |found]; cbn in *.
    + exact IH.
    + apply Forall_app. split; [exact IH | repeat constructor; exact E].
    + destruct IH as (before & after & -> & Hin & Hlater).
      exists before, (after ++ [word]). rewrite <- app_assoc. repeat split.
      * exact Hin.
      * apply Forall_app. split; [exact Hlater | repeat constructor; exact E].
Qed.

(** X1: in each of the three vocabularies, the slot that [extractEntities]
    fills holds the last word of the vocabulary that occurs in the text, and
    null when none occurs; the location and season slots are always null. *)
Theorem extractEntities_keeps_last_word (text : string) :
  lastOccurring cropWords text (ent_crop (extractEntities text)) /\
  lastOccurring diseaseWords text (ent_disease (extractEntities text)) /\
  lastOccurring pestWords text (ent_pest (extractEntities text)) /\
  ent_location (extractEntities text) = JNull /\
  ent_season (extractEntities text) = JNull.
Proof.
  repeat split; apply scanWords_lastOccurring.
Qed.

Lemma firstIntent_silent table text :
  Forall (silent text) table -> firstIntent table text = general_query.
Proof.
  induction 1 as [|[i ps] table H _ IH]; [reflexivity|].
  cbn [firstIntent]. unfold silent in H. cbn [snd] in H. now rewrite H.
Qed.

Lemma firstIntent_first before : forall i ps after text,
  Forall (silent text) before ->
  existsb (includes text) ps = true ->
  firstIntent (before ++ (i, ps) :: after) text = i.
Proof.
  induction before as [|[j qs] before IH]; intros i ps after text Hb Hps.
  - cbn [app firstIntent]. now rewrite Hps.
  - apply Forall_cons in Hb as [Hj Hb]. unfold silent in Hj. cbn [snd] in Hj.
    cbn [app firstIntent]. rewrite Hj. now apply IH.
Qed.

Lemma firstIntent_general table text :
  Forall (fun entry => fst entry <> general_query) table ->
  firstIntent table text = general_query ->
  Forall (silent text) table.
Proof.
  induction 1 as [|[i ps] table Hi _ IH]; intros H; [constructor|].
  cbn [firstIntent] in H. cbn [fst] in Hi.
  destruct (existsb (includes text) ps) eqn:E; [congruence|].
  constructor; [exact E | now apply IH].
Qed.

(** X2: [classifyIntent] returns the first intent of the table, in its
    declared order, one of whose trigger keywords occurs in the text, and it
    returns general_query exactly when no keyword of any intent occurs. *)
Theorem classifyIntent_first_trigger_wins (text : string) :
  (classifyIntent text = general_query <-> Forall (silent text) intentPatterns) /\
  (forall before i keywords after,
     intentPatterns = before ++ (i, keywords) :: after ->
     Forall (silent text) before ->
     existsb (includes text) keywords = true ->
     classifyIntent text = i).
Proof.
  split.
  - split; [|apply firstIntent_silent].
    apply firstIntent_general. repeat constructor; discriminate.
  - intros before i keywords after Htable Hb Hk.
    unfold classifyIntent. rewrite Htable. now apply firstIntent_first.
Qed.

Lemma replace_absent text : forall pat rep,
  includes text pat = false -> replace text pat rep = text.
Proof.
  induction text as [|c text IH]; intros pat rep H;
    rewrite includes_unfold in H; cbn [replace].
  - now destruct (String.prefix pat "").
  - destruct (String.prefix pat (String c text)); [discriminate|].
    now rewrite IH.
Qed.

Lemma translate_absent phrases : forall text,
  Forall (fun entry => includes text (fst entry) = false) phrases ->
  fold_left (fun t '(malayalam, english) => replace t malayalam english) phrases text
  = text.
Proof.
  induction phrases as [|[malayalam english] phrases IH]; intros text H;
    [reflexivity|].
  apply Forall_cons in H as [Hm H]. cbn [fst] in Hm. cbn [fold_left].
  rewrite (replace_absent _ _ _ Hm). now apply IH.
Qed.

(** X3: a text in which no phrase of the phrase table occurs passes through
    [translateMalayalam] unchanged, so for language "ml" the pipeline records
    the text itself both as original and as translated text. *)
Theorem translateMalayalam_keeps_unknown_text (text : string) :
  Forall (fun entry => includes text (fst entry) = false) commonPhrases ->
  translateMalayalam text = text /\
  processNaturalLanguage text "ml" =
    NluOk {| originalText := text; translatedText := Some text;
             entities := extractEntities (toLowerCase text);
             intent := classifyIntent text; nlu_confidence := 0.85 |}.
Proof.
  intros H. assert (E : translateMalayalam text = text) by now apply translate_absent.
  split; [exact E|]. unfold processNaturalLanguage. cbn [String.eqb Ascii.eqb Bool.eqb].
  now rewrite E.
Qed.

(** X3 on an English question. *)
Lemma translateMalayalam_keeps_unknown_text_witness :
  translateMalayalam "my tomato has late blight spots" =
  "my tomato has late blight spots".
Proof.
  apply (translateMalayalam_keeps_unknown_text "my tomato has late blight spots").
  unfold commonPhrases.
  repeat (apply Forall_cons; split; [vm_compute; reflexivity|]).
  apply Forall_nil. exact I.
Defined.

(** ** Image findings *)

Lemma analyzeImage_cases (imagePath cropType : string) :
  let fileName := toLowerCase (basename imagePath) in
  let result := analyzeImage imagePath cropType in
  (Forall (fun entry => includes fileName (fst entry) = false) diseasePatterns /\
   result = {| img_disease := "Unknown condition"; img_confidence := 0.45;
               symptoms := ["Unclear symptoms from image"]; severity := low |}) \/
  (exists before pattern disease c after,
     diseasePatterns = before ++ (pattern, (disease, c)) :: after /\
     Forall (fun entry => includes fileName (fst entry) = false) before /\
     includes fileName pattern = true /\
     result = {| img_disease := disease; img_confidence := c;
                 symptoms := ["Visible " +:+ pattern +:+ " patterns";
                              "Affected leaf areas"];
                 severity := if lt 0.8 c then high else medium |} /\
     img_disease result <> "Unknown condition" /\
     In c [0.82; 0.89; 0.75; 0.78]%Q).
Proof.
  cbv zeta. unfold analyzeImage, diseasePatterns. cbn [firstPattern].
  set (fileName := toLowerCase (basename imagePath)).
  destruct (includes fileName "spot") eqn:E1;
    [|destruct (includes fileName "blight") eqn:E2;
      [|destruct (includes fileName "yellow") eqn:E3;
        [|destruct (includes fileName "brown") eqn:E4]]].
  - right. exists [], "spot", "Leaf Spot", 0.82%Q, (tl diseasePatterns).
    repeat split; [constructor | exact E1 | discriminate | cbn; auto].
  - right. exists (firstn 1 diseasePatterns), "blight", "Late Blight", 0.89%Q,
             (skipn 2 diseasePatterns).
    repeat split; [repeat constructor; exact E1 | exact E2 | discriminate | cbn; auto].
  - right. exists (firstn 2 diseasePatterns), "yellow", "Nutrient Deficiency", 0.75%Q,
             (skipn 3 diseasePatterns).
    repeat split;
      [repeat constructor; assumption | exact E3 | discriminate | cbn; auto].
  - right. exists (firstn 3 diseasePatterns), "brown", "Fungal Infection", 0.78%Q, [].
    repeat split;
      [repeat constructor; assumption | exact E4 | discriminate | cbn; auto 6].
  - left. split; [repeat constructor; assumption | reflexivity].
Qed.

(** X4: [analyzeImage] decides on the lower-cased base name of the path
    alone.  When none of the four patterns occurs in it, the finding is
    "Unknown condition" with confidence 0.45 and severity low.  Otherwise
    the finding is that of the first pattern of the table that occurs: its
    disease is not the sentinel, its confidence lies between 0.75 and 0.89,
    and its severity is high when the confidence is above 0.8 and medium
    otherwise, never low. *)
Theorem analyzeImage_reports_first_pattern (imagePath cropType : string) :
  let fileName := toLowerCase (basename imagePath) in
  let result := analyzeImage imagePath cropType in
  (Forall (fun entry => includes fileName (fst entry) = false) diseasePatterns /\
   result = {| img_disease := "Unknown condition"; img_confidence := 0.45;
               symptoms := ["Unclear symptoms from image"]; severity := low |}) \/
  (exists before pattern disease c after,
     diseasePatterns = before ++ (pattern, (disease, c)) :: after /\
     Forall (fun entry => includes fileName (fst entry) = false) before /\
     includes fileName pattern = true /\
     img_disease result = disease /\ img_confidence result = c /\
     disease <> "Unknown condition" /\
     (0.75 <= c)%Q /\ (c <= 0.89)%Q /\
     (severity result = high <-> (0.8 < c)%Q) /\
     (severity result = medium <-> ~ (0.8 < c)%Q)).
Proof.
  cbv zeta.
  destruct (analyzeImage_cases imagePath cropType) as [H | H]; cbv zeta in H;
    [left; exact H | right].
  destruct H as (before & pattern & disease & c & after & Ht & Hb & Hp & -> & Hd & Hc).
  exists before, pattern, disease, c, after. cbn [img_disease img_confidence severity] in *.
  repeat match goal with |- _ /\ _ => split end; try assumption; try reflexivity.
  - cbn in Hc. destruct Hc as [<-|[<-|[<-|[<-|[]]]]]; unfold Qle; cbn; lia.
  - cbn in Hc. destruct Hc as [<-|[<-|[<-|[<-|[]]]]]; unfold Qle; cbn; lia.
  - rewrite <- lt_spec. destruct (lt 0.8 c); split; congruence.
  - rewrite <- lt_spec. destruct (lt 0.8 c); split; congruence.
Qed.

(** ** Replies of the query route *)

Lemma queryRoute_without_audio st clock req :
  file_audio req = None ->
  exists resp,
    queryRoute st clock req =
      (Json resp,
       recordQuery
         (snd (escalate st clock (requestFarmer req) (requestText req) (requestNlp req)
                        (requestImage req) (requestAdvice st clock req)
                        (requestLocation req) (requestCrop req)))
         clock (requestQuery req) (requestAdvice st clock req)) /\
    status resp =
      fst (escalate st clock (requestFarmer req) (requestText req) (requestNlp req)
                    (requestImage req) (requestAdvice st clock req)
                    (requestLocation req) (requestCrop req)) /\
    resp_confidence resp = adviceConfidence (requestAdvice st clock req) /\
    answer resp = match requestAdvice st clock req with
                  | AdviceOk advice => Some (mainAdvice advice)
                  | AdviceError _ => None
                  end /\
    resp_recommendations resp = match requestAdvice st clock req with
                                | AdviceOk advice => recommendations advice
                                | AdviceError _ => []
                                end.
Proof.
  intros H. unfold queryRoute, queryRouteBody. rewrite H.
  cbv beta iota zeta delta [mbind outcome_bind].
  eexists. split; [reflexivity|]. repeat split.
Qed.

Lemma queryRoute_with_audio st clock req :
  is_Some (file_audio req) ->
  queryRoute st clock req =
  (ServerError "Failed to process your query" "Assignment to constant variable.", st).
Proof.
  intros [audioPath H]. unfold queryRoute, queryRouteBody. now rewrite H.
Qed.

Lemma requestNlp_cases req :
  (requestText req = "" /\ requestNlp req = None) \/
  (requestText req <> "" /\
   exists data, requestNlp req = Some (NluOk data) /\ nlu_confidence data = 0.85%Q /\
                (exists text, ent_crop (entities data) = scanWords cropWords text)).
Proof.
  unfold requestNlp. destruct (String.eqb_spec (requestText req) "") as [E|E].
  - left. split; [exact E | reflexivity].
  - right. split; [exact E|]. unfold processNaturalLanguage.
    eexists. split; [reflexivity|]. split; [reflexivity|]. cbn. eauto.
Qed.

Lemma requestImage_cases req :
  noFinding req \/
  exists image, requestImage req = Some image /\
                img_disease image <> "Unknown condition" /\
                In (img_confidence image) [0.82; 0.89; 0.75; 0.78]%Q.
Proof.
  unfold noFinding, requestImage. destruct (file_image req) as [imagePath|]; cbn;
    [|left; exact I].
  destruct (analyzeImage_cases imagePath (requestCrop req)) as [[_ H] | H];
    cbv zeta in H.
  - left. now rewrite H.
  - destruct H as (before & pattern & disease & c & after & _ & _ & _ & Hr & Hd & Hc).
    right. eexists. split; [reflexivity|]. split; [exact Hd|]. now rewrite Hr.
Qed.

Lemma generateAdviceBody_confidence st clock query input farmerHistory advice :
  generateAdviceBody st clock query input farmerHistory = Ok advice ->
  confidence advice = branchConfidence input.
Proof.
  unfold generateAdviceBody, branchConfidence, textConfidence. intros H.
  destruct (getCropCalendar _ _) as [calendar|]; [|discriminate].
  cbv beta iota zeta delta [mbind outcome_bind] in H.
  destruct (in_imageAnalysis input) as [image|];
    [destruct (String.eqb (img_disease image) "Unknown condition")|];
    try (destruct (in_nlp input) as [[data|]|];
         [destruct (generateIntentBasedAdvice _ _); [|discriminate] | |];
         injection H as <-; reflexivity).
  destruct (generateDiseaseAdvice _ _); [|discriminate].
  injection H as <-. reflexivity.
Qed.

Lemma requestText_confidence req :
  (requestText req = "" /\ textConfidence (requestNlp req) = 0.3%Q) \/
  (requestText req <> "" /\ textConfidence (requestNlp req) = 0.85%Q).
Proof.
  unfold textConfidence.
  destruct (requestNlp_cases req) as [[Ht ->] | [Ht (data & -> & Hc & _)]].
  - left. split; [exact Ht | reflexivity].
  - right. split; [exact Ht|]. now rewrite Hc.
Qed.

(** The confidence of the advice for a request, by the branch taken. *)
Lemma requestAdvice_confidence st clock req advice :
  requestAdvice st clock req = AdviceOk advice ->
  (noFinding req /\ requestText req = "" /\ confidence advice = 0.3%Q) \/
  (noFinding req /\ requestText req <> "" /\ confidence advice = 0.85%Q) \/
  (exists image, requestImage req = Some image /\
                 img_disease image <> "Unknown condition" /\
                 In (img_confidence image) [0.82; 0.89; 0.75; 0.78]%Q /\
                 confidence advice = img_confidence image).
Proof.
  unfold requestAdvice, generateAdvice.
  destruct (generateAdviceBody _ _ _ _ _) as [a|] eqn:E; [|discriminate].
  intros [= ->]. apply generateAdviceBody_confidence in E. rewrite E.
  unfold branchConfidence. cbn [in_imageAnalysis in_nlp requestInput].
  destruct (requestImage_cases req) as [Hno | (image & Himg & Hd & Hc)].
  - assert (Hsame :
      match requestImage req with
      | Some image =>
          if String.eqb (img_disease image) "Unknown condition"
          then textConfidence (requestNlp req)
          else img_confidence image
      | None => textConfidence (requestNlp req)
      end = textConfidence (requestNlp req)).
    { unfold noFinding in Hno. destruct (requestImage req) as [image|]; [|reflexivity].
      now rewrite Hno. }
    rewrite Hsame.
    destruct (requestText_confidence req) as [[Ht ->] | [Ht ->]];
      [left | right; left]; auto.
  - right. right. exists image. rewrite Himg.
    apply String.eqb_neq in Hd as Hd'. rewrite Hd'. auto.
Qed.

Lemma cropDatabase_keys_own crop cropInfo :
  ownProperty cropDatabase crop = Some cropInfo -> objectPrototype crop = None.
Proof.
  unfold cropDatabase. cbn [ownProperty].
  destruct (String.eqb_spec "banana" crop) as [<-|_]; [reflexivity|].
  destruct (String.eqb_spec "rice" crop) as [<-|_]; [reflexivity|].
  destruct (String.eqb_spec "tomato" crop) as [<-|_]; [reflexivity|discriminate].
Qed.

Lemma getCropCalendar_throws crop location :
  (exists calendar, getCropCalendar crop location = Ok calendar /\
                    objectPrototype crop = None /\
                    (is_Some calendar <-> is_Some (ownProperty cropDatabase crop))) \/
  (exists message text, getCropCalendar crop location = Throw message /\
                        objectPrototype crop = Some text).
Proof.
  unfold getCropCalendar, getProp.
  destruct (ownProperty cropDatabase crop) as [cropInfo|] eqn:E.
  - left. eexists. split; [reflexivity|].
    split; [exact (cropDatabase_keys_own _ _ E)|]. split; eauto.
  - destruct (objectPrototype crop) as [text|].
    + right. eauto.
    + left. eexists. split; [reflexivity|]. split; [reflexivity|].
      split; intros [x H]; discriminate.
Qed.

Lemma requestAdvice_ok_crop st clock req advice :
  requestAdvice st clock req = AdviceOk advice ->
  objectPrototype (requestCrop req) = None.
Proof.
  unfold requestAdvice, generateAdvice.
  destruct (generateAdviceBody _ _ _ _ _) as [a|] eqn:E; [|discriminate].
  intros _. unfold generateAdviceBody in E. cbn [in_crop in_location requestInput] in E.
  destruct (getCropCalendar_throws (requestCrop req) (requestLocation req))
    as [(calendar & _ & H & _) | (message & text & Ht & _)]; [exact H|].
  rewrite Ht in E. discriminate.
Qed.

Lemma requestAdvice_unanswerable st clock req :
  requestText req = "" -> noFinding req ->
  objectPrototype (requestCrop req) = None ->
  exists advice,
    requestAdvice st clock req = AdviceOk advice /\ confidence advice = 0.3%Q.
Proof.
  intros Ht Hno Hcrop. unfold requestAdvice, generateAdvice, generateAdviceBody.
  cbn [in_crop in_location in_nlp in_imageAnalysis requestInput].
  destruct (getCropCalendar_throws (requestCrop req) (requestLocation req))
    as [(calendar & -> & _) | (message & text & _ & H)]; [|congruence].
  cbv beta iota zeta delta [mbind outcome_bind].
  assert (Hnlp : requestNlp req = None) by (unfold requestNlp; now rewrite Ht).
  rewrite Hnlp. unfold noFinding in Hno.
  destruct (requestImage req) as [image|]; [rewrite Hno; cbn|];
    eexists; split; reflexivity.
Qed.

Lemma escalate_error st clock farmerId processedQuery nlp image error location crop :
  escalate st clock farmerId processedQuery nlp image (AdviceError error) location crop
  = (answered, st).
Proof. reflexivity. Qed.

Lemma lt_route_confidence c :
  In c [0.82; 0.89; 0.75; 0.78]%Q -> lt c 0.6 = false.
Proof. cbn. intros [<-|[<-|[<-|[<-|[]]]]]; reflexivity. Qed.

(** X5: the confidence of a JSON reply of the query route is one of 0.3,
    0.85, 0.82, 0.89, 0.75 and 0.78, so it lies between 0.3 and 0.89; a reply
    without a confidence has no answer either and the status "answered". *)
Theorem reply_confidence_is_one_of_six st clock req resp st' :
  queryRoute st clock req = (Json resp, st') ->
  match resp_confidence resp with
  | Some c => In c routeConfidences /\ (0.3 <= c)%Q /\ (c <= 0.89)%Q
  | None => answer resp = None /\ status resp = answered
  end.
Proof.
  intros Hroute. destruct (file_audio req) as [audioPath|] eqn:Haudio.
  { rewrite queryRoute_with_audio in Hroute by (rewrite Haudio; eauto). discriminate. }
  destruct (queryRoute_without_audio st clock req Haudio)
    as (resp0 & Hjson & Hstatus & Hconf & Hanswer & _).
  rewrite Hjson in Hroute. injection Hroute as <- <-.
  rewrite Hconf, Hanswer, Hstatus.
  destruct (requestAdvice st clock req) as [advice|error] eqn:E; cbn [adviceConfidence].
  - assert (Hin : In (confidence advice) routeConfidences).
    { destruct (requestAdvice_confidence _ _ _ _ E)
        as [(_ & _ & ->) | [(_ & _ & ->) | (image & _ & _ & Hc & ->)]];
        unfold routeConfidences; cbn in *; tauto. }
    split; [exact Hin|].
    unfold routeConfidences in Hin. cbn in Hin.
    destruct Hin as [<-|[<-|[<-|[<-|[<-|[<-|[]]]]]]]; split; unfold Qle; cbn; lia.
  - split; reflexivity.
Qed.

(** X5 on the question about tomato. *)
Lemma reply_confidence_witness :
  In 0.85%Q routeConfidences /\ (0.3 <= 0.85)%Q /\ (0.85 <= 0.89)%Q.
Proof.
  exact (reply_confidence_is_one_of_six emptyStore sampleClock tomatoRequest _ _ eq_refl).
Defined.

(** X6: a query request is escalated exactly when it has no text, no image
    finding other than the sentinel, and a crop that is not a key inherited
    from [Object.prototype]; every escalated request has confidence 0.3 and
    its escalation record has priority "high", so the route never files an
    escalation with priority "medium". *)
Theorem only_unanswerable_requests_escalate st clock req resp st' :
  queryRoute st clock req = (Json resp, st') ->
  (status resp = escalated <->
   requestText req = "" /\ noFinding req /\ objectPrototype (requestCrop req) = None) /\
  (status resp = escalated ->
   resp_confidence resp = Some 0.3%Q /\
   exists e, escalations st' = escalations st ++ [e] /\ priority e = PriorityHigh).
Proof.
  intros Hroute. destruct (file_audio req) as [audioPath|] eqn:Haudio.
  { rewrite queryRoute_with_audio in Hroute by (rewrite Haudio; eauto). discriminate. }
  destruct (queryRoute_without_audio st clock req Haudio)
    as (resp0 & Hjson & Hstatus & Hconf & _).
  rewrite Hjson in Hroute. injection Hroute as <- <-.
  rewrite Hconf, Hstatus. unfold recordQuery. cbn [escalations].
  pose proof (generateAdvice_flag st clock (requestQuery req) (requestInput req)
                (historyFrom 0 (queries st) (requestFarmer req))) as Hflag.
  fold (requestAdvice st clock req) in Hflag.
  destruct (requestAdvice st clock req) as [advice|error] eqn:E.
  - unfold escalate, priorityOf. cbn [needsEscalation adviceConfidence].
    rewrite Hflag, orb_diag.
    pose proof (requestAdvice_ok_crop _ _ _ _ E) as Hcrop.
    destruct (requestAdvice_confidence _ _ _ _ E)
      as [(Hno & Ht & Hc) | [(Hno & Ht & Hc) | (image & Himg & Hd & Hin & Hc)]];
      rewrite Hc.
    + change (lt 0.3 0.6) with true. change (lt 0.3 0.4) with true.
      cbn [fst snd escalations].
      split; [tauto|]. intros _. split; [reflexivity|].
      eexists. split; reflexivity.
    + change (lt 0.85 0.6) with false. cbn [fst].
      split; [|discriminate]. split; [discriminate|]. intros (Ht' & _). contradiction.
    + rewrite (lt_route_confidence _ Hin). cbn [fst].
      split; [|discriminate]. split; [discriminate|]. intros (_ & Hno & _).
      unfold noFinding in Hno. rewrite Himg in Hno. contradiction.
  - rewrite escalate_error. cbn [fst].
    split; [|discriminate]. split; [discriminate|]. intros (Ht & Hno & Hcrop).
    destruct (requestAdvice_unanswerable st clock req Ht Hno Hcrop) as (advice & H & _).
    congruence.
Qed.

(** X6 on the empty request. *)
Lemma only_unanswerable_requests_escalate_witness :
  resp_confidence
    (match fst (queryRoute emptyStore sampleClock emptyRequest) with
     | Json resp => resp
     | ServerError _ _ =>
         {| answer := None; resp_recommendations := []; resp_confidence := None;
            status := answered; detectedCrop := JNull; detectedDisease := None;
            resp_season := ""; resp_language := ""; nlpProcessed := false;
            imageProcessed := false; voiceProcessed := false |}
     end) = Some 0.3%Q /\
  exists e, escalations (snd (queryRoute emptyStore sampleClock emptyRequest)) = [e] /\
            priority e = PriorityHigh.
Proof.
  exact (proj2 (only_unanswerable_requests_escalate emptyStore sampleClock emptyRequest
                  _ _ eq_refl) eq_refl).
Defined.

(** ** The stores along a run *)

Lemma escalate_added st clock farmerId processedQuery nlp image response location crop :
  exists added,
    escalations (snd (escalate st clock farmerId processedQuery nlp image response
                               location crop)) = escalations st ++ added /\
    map aiResponse added = (if needsEscalation response then [response] else []) /\
    Forall (fun e => esc_farmerId e = farmerId) added.
Proof.
  unfold escalate. destruct (needsEscalation response); cbn [snd escalations].
  - eexists [_]. split; [reflexivity|]. split; [reflexivity|]. repeat constructor.
  - exists []. rewrite app_nil_r. repeat split. constructor.
Qed.

Lemma escalate_feedback st clock farmerId processedQuery nlp image response location crop :
  feedback (snd (escalate st clock farmerId processedQuery nlp image response
                          location crop)) = feedback st.
Proof. unfold escalate. now destruct (needsEscalation response). Qed.

(** The stores after a query request without audio. *)
Lemma query_step st clock req :
  file_audio req = None ->
  farmers (step st (PostQuery clock req)) =
    farmers (recordQuery st clock (requestQuery req) (requestAdvice st clock req)) /\
  queries (step st (PostQuery clock req)) = queries st ++ [requestRecord st clock req] /\
  feedback (step st (PostQuery clock req)) = feedback st /\
  exists added,
    escalations (step st (PostQuery clock req)) = escalations st ++ added /\
    map aiResponse added =
      (if needsEscalation (requestAdvice st clock req)
       then [requestAdvice st clock req] else []) /\
    Forall (fun e => esc_farmerId e = requestFarmer req) added.
Proof.
  intros Haudio. cbn [step].
  destruct (queryRoute_without_audio st clock req Haudio) as (resp & -> & _).
  cbn [snd]. unfold recordQuery. cbn [farmers queries feedback escalations].
  rewrite escalate_farmers, escalate_queries, escalate_feedback.
  repeat split. apply escalate_added.
Qed.

Lemma audio_step st clock req :
  is_Some (file_audio req) -> step st (PostQuery clock req) = st.
Proof. intros H. cbn [step]. now rewrite queryRoute_with_audio. Qed.

Lemma map_alter_same {A B : Type} (f : A -> B) (g : A -> A) (l : list A) :
  (forall x, f (g x) = f x) -> forall i, map f (alter g i l) = map f l.
Proof.
  intros H. induction l as [|x l IH]; intros [|i]; cbn; try reflexivity.
  - now rewrite H.
  - f_equal. apply IH.
Qed.

Lemma filter_alter_same {A B : Type} (f : A -> B) (p : A -> bool) (g : A -> A)
    (l : list A) :
  (forall x, f (g x) = f x) -> (forall x, p (g x) = p x) ->
  forall i, map f (List.filter p (alter g i l)) = map f (List.filter p l).
Proof.
  intros Hf Hp. induction l as [|x l IH]; intros [|i]; cbn; try reflexivity.
  - rewrite Hp. destruct (p x); cbn; [now rewrite Hf | reflexivity].
  - destruct (p x); cbn; [f_equal|]; apply IH.
Qed.

(** The stores after a feedback request. *)
Lemma feedback_step st clock body :
  farmers (step st (PostFeedback clock body)) = farmers st /\
  escalations (step st (PostFeedback clock body)) = escalations st /\
  (exists entry, feedback (step st (PostFeedback clock body)) = feedback st ++ [entry]) /\
  length (queries (step st (PostFeedback clock body))) = length (queries st) /\
  map withoutFeedback (queries (step st (PostFeedback clock body))) =
    map withoutFeedback (queries st) /\
  forall farmerId,
    map rec_id (recordsOf (step st (PostFeedback clock body)) farmerId) =
    map rec_id (recordsOf st farmerId).
Proof.
  cbn [step]. unfold feedbackRoute, recordsOf. cbn [snd farmers escalations feedback queries].
  repeat split; [eauto | | |];
    destruct (findIndex _ _); try reflexivity.
  - apply length_alter.
  - now apply map_alter_same.
  - intros farmerId. now apply filter_alter_same.
Qed.

Lemma run_snoc ops op : run (ops ++ [op]) = step (run ops) op.
Proof. unfold run. now rewrite fold_left_app. Qed.

Lemma map_response_withoutFeedback (log : list QueryRecord) :
  map rec_response log = map rec_response (map withoutFeedback log).
Proof. rewrite map_map. reflexivity. Qed.

Lemma step_escalations_mirror st op :
  map aiResponse (escalations st) =
    List.filter needsEscalation (map rec_response (queries st)) ->
  map aiResponse (escalations (step st op)) =
    List.filter needsEscalation (map rec_response (queries (step st op))).
Proof.
  intros H. destruct op as [clock req | clock body].
  - destruct (file_audio req) as [audioPath|] eqn:Haudio.
    + rewrite audio_step by (rewrite Haudio; eauto). exact H.
    + destruct (query_step st clock req Haudio)
        as (_ & -> & _ & added & -> & Hadded & _).
      rewrite !map_app, List.filter_app, H, Hadded. cbn [map List.filter requestRecord rec_response].
      now destruct (needsEscalation (requestAdvice st clock req)).
  - destruct (feedback_step st clock body) as (_ & -> & _ & _ & Hq & _).
    rewrite (map_response_withoutFeedback (queries (step _ _))), Hq,
      <- map_response_withoutFeedback.
    exact H.
Qed.

(** X7: after any list of requests, the advice results held by the
    escalation list are, in order, exactly the advice results of the query
    log that need escalation (a confidence below 0.6): every such query has
    its escalation record and there is no other escalation record. *)
Theorem escalations_mirror_low_confidence_queries (ops : list Operation) :
  map aiResponse (escalations (run ops)) =
  List.filter needsEscalation (map rec_response (queries (run ops))).
Proof.
  induction ops as [|op ops IH] using rev_ind; [reflexivity|].
  rewrite run_snoc. now apply step_escalations_mirror.
Qed.

Lemma step_logs_grow st op :
  escalations st `prefix_of` escalations (step st op) /\
  feedback st `prefix_of` feedback (step st op) /\
  map withoutFeedback (queries st) `prefix_of` map withoutFeedback (queries (step st op)).
Proof.
  destruct op as [clock req | clock body].
  - destruct (file_audio req) as [audioPath|] eqn:Haudio.
    + rewrite audio_step by (rewrite Haudio; eauto). repeat split; reflexivity.
    + destruct (query_step st clock req Haudio)
        as (_ & -> & -> & added & -> & _).
      rewrite map_app. repeat split; try reflexivity; now apply prefix_app_r.
  - destruct (feedback_step st clock body) as (_ & -> & (entry & ->) & _ & -> & _).
    repeat split; try reflexivity. now apply prefix_app_r.
Qed.

(** X10: the three logs only grow.  After any further requests, the
    escalation list and the feedback log start with what they held before,
    and so does the query log once feedback is left aside: no route removes,
    reorders or rewrites an escalation record or a feedback entry, and a
    query record only ever changes in its feedback. *)
Theorem logs_only_grow (st : Store) (more : list Operation) :
  escalations st `prefix_of` escalations (fold_left step more st) /\
  feedback st `prefix_of` feedback (fold_left step more st) /\
  map withoutFeedback (queries st)
    `prefix_of` map withoutFeedback (queries (fold_left step more st)).
Proof.
  revert st. induction more as [|op more IH]; intros st; [repeat split; reflexivity|].
  cbn [fold_left]. destruct (step_logs_grow st op) as (He & Hf & Hq).
  destruct (IH (step st op)) as (He' & Hf' & Hq').
  repeat split; etrans; eassumption.
Qed.

(** ** Profiles along a run *)

Lemma recordQuery_profile st clock query response :
  exists profile',
    farmers (recordQuery st clock query response) =
      <[q_farmerId query := profile']> (farmers st) /\
    queryHistory profile' =
      match farmers st !! q_farmerId query with
      | Some profile => queryHistory profile ++ [now clock]
      | None => [now clock]
      end /\
    match farmers st !! q_farmerId query with
    | Some profile =>
        fp_id profile' = fp_id profile /\ fp_location profile' = fp_location profile /\
        joinDate profile' = joinDate profile /\
        crops profile `prefix_of` crops profile'
    | None =>
        fp_id profile' = q_farmerId query /\ fp_location profile' = q_location query /\
        joinDate profile' = now clock /\
        crops profile' = if String.eqb (q_crop query) "" then [] else [q_crop query]
    end.
Proof.
  unfold recordQuery. cbn [farmers]. eexists. split; [reflexivity|].
  cbn [queryHistory fp_id fp_location joinDate crops].
  destruct (farmers st !! q_farmerId query) as [profile|]; cbn [newProfile queryHistory
    fp_id fp_location joinDate crops]; (split; [reflexivity|]); repeat split.
  - destruct (negb _ && negb _); [now apply prefix_app_r | reflexivity].
  - destruct (String.eqb (q_crop query) ""); [reflexivity|].
    cbn. now rewrite bool_decide_eq_false_2 by apply not_elem_of_nil.
Qed.

Lemma recordsOf_snoc (log : list QueryRecord) (q : QueryRecord) (farmerId : string) :
  List.filter (fun r => String.eqb (rec_farmerId r) farmerId) (log ++ [q]) =
  List.filter (fun r => String.eqb (rec_farmerId r) farmerId) log ++
  (if String.eqb (rec_farmerId q) farmerId then [q] else []).
Proof. rewrite List.filter_app. reflexivity. Qed.

(** What the stores keep between a profile and the records of its farmer. *)
Lemma step_profiles st op :
  (forall farmerId,
     match farmers st !! farmerId with
     | Some profile =>
         fp_id profile = farmerId /\
         queryHistory profile = map rec_id (recordsOf st farmerId) /\
         queryHistory profile <> []
     | None => map rec_id (recordsOf st farmerId) = []
     end) ->
  forall farmerId,
    match farmers (step st op) !! farmerId with
    | Some profile =>
        fp_id profile = farmerId /\
        queryHistory profile = map rec_id (recordsOf (step st op) farmerId) /\
        queryHistory profile <> []
    | None => map rec_id (recordsOf (step st op) farmerId) = []
    end.
Proof.
  intros Inv farmerId. destruct op as [clock req | clock body].
  - destruct (file_audio req) as [audioPath|] eqn:Haudio.
    { rewrite audio_step by (rewrite Haudio; eauto). apply Inv. }
    destruct (query_step st clock req Haudio) as (Hf & Hq & _).
    unfold recordsOf. rewrite Hf, Hq, recordsOf_snoc.
    destruct (recordQuery_profile st clock (requestQuery req) (requestAdvice st clock req))
      as (profile' & -> & Hhist & Hrest).
    cbn [requestQuery q_farmerId requestRecord rec_farmerId] in *.
    pose proof (Inv (requestFarmer req)) as Hown. pose proof (Inv farmerId) as Hother.
    destruct (String.eqb_spec (requestFarmer req) farmerId) as [<- | Hne].
    + rewrite lookup_insert_eq, map_app. cbn [map rec_id]. rewrite Hhist.
      unfold recordsOf in Hown.
      destruct (farmers st !! requestFarmer req) as [profile|].
      * destruct Hown as (Hid & Hh & _), Hrest as (Hid' & _).
        rewrite Hid', Hid, Hh. repeat split. now destruct (map rec_id _).
      * destruct Hrest as (Hid' & _). rewrite Hown. repeat split; [exact Hid' | discriminate].
    + rewrite lookup_insert_ne, app_nil_r by exact Hne. exact Hother.
  - destruct (feedback_step st clock body) as (-> & _ & _ & _ & _ & Hids).
    rewrite Hids. apply Inv.
Qed.

Lemma run_profiles ops farmerId :
  match farmers (run ops) !! farmerId with
  | Some profile =>
      fp_id profile = farmerId /\
      queryHistory profile = map rec_id (recordsOf (run ops) farmerId) /\
      queryHistory profile <> []
  | None => map rec_id (recordsOf (run ops) farmerId) = []
  end.
Proof.
  revert farmerId. induction ops as [|op ops IH] using rev_ind; [reflexivity|].
  rewrite run_snoc. now apply step_profiles.
Qed.

(** X8: after any list of requests, a farmer has a profile exactly when the
    query log holds a record of that farmer; the profile is stored under its
    own id, and its query history lists the ids of the farmer's records in
    the order of the log. *)
Theorem profile_history_mirrors_log (ops : list Operation) (farmerId : string) :
  match farmers (run ops) !! farmerId with
  | Some profile =>
      fp_id profile = farmerId /\
      queryHistory profile = map rec_id (recordsOf (run ops) farmerId) /\
      recordsOf (run ops) farmerId <> []
  | None => recordsOf (run ops) farmerId = []
  end.
Proof.
  pose proof (run_profiles ops farmerId) as H.
  destruct (farmers (run ops) !! farmerId) as [profile|].
  - destruct H as (Hid & Hh & Hne). repeat split; try assumption.
    intros Hnil. rewrite Hnil in Hh. contradiction.
  - now destruct (recordsOf (run ops) farmerId).
Qed.

Lemma step_profile_kept st op farmerId profile :
  farmers st !! farmerId = Some profile ->
  exists profile',
    farmers (step st op) !! farmerId = Some profile' /\
    fp_id profile' = fp_id profile /\
    fp_location profile' = fp_location profile /\
    joinDate profile' = joinDate profile /\
    queryHistory profile `prefix_of` queryHistory profile' /\
    crops profile `prefix_of` crops profile'.
Proof.
  intros H.
  assert (Hsame : exists profile',
            farmers st !! farmerId = Some profile' /\
            fp_id profile' = fp_id profile /\
            fp_location profile' = fp_location profile /\
            joinDate profile' = joinDate profile /\
            queryHistory profile `prefix_of` queryHistory profile' /\
            crops profile `prefix_of` crops profile')
    by (exists profile; repeat split; [exact H | reflexivity | reflexivity]).
  destruct op as [clock req | clock body].
  - destruct (file_audio req) as [audioPath|] eqn:Haudio.
    { rewrite audio_step by (rewrite Haudio; eauto). exact Hsame. }
    destruct (query_step st clock req Haudio) as (-> & _).
    destruct (recordQuery_profile st clock (requestQuery req) (requestAdvice st clock req))
      as (profile' & -> & Hhist & Hrest).
    cbn [requestQuery q_farmerId] in *.
    destruct (decide (requestFarmer req = farmerId)) as [<- | Hne].
    + rewrite H in Hhist, Hrest. destruct Hrest as (Hid & Hloc & Hjoin & Hcrops).
      exists profile'. rewrite lookup_insert_eq, Hhist.
      repeat split; try assumption. now apply prefix_app_r.
    + rewrite lookup_insert_ne by exact Hne. exact Hsame.
  - destruct (feedback_step st clock body) as (-> & _). exact Hsame.
Qed.

(** X9: a farmer profile, once in the store, stays there through any further
    requests with the same id, location and join date, and its query history
    and crops only get longer at the end; and the first stored query of a
    farmer creates the profile with the location of that request, one entry
    of history and the request's crop, if it names one. *)
Theorem profiles_are_created_once_and_kept :
  (forall st more farmerId profile,
     farmers st !! farmerId = Some profile ->
     exists profile',
       farmers (fold_left step more st) !! farmerId = Some profile' /\
       fp_id profile' = fp_id profile /\
       fp_location profile' = fp_location profile /\
       joinDate profile' = joinDate profile /\
       queryHistory profile `prefix_of` queryHistory profile' /\
       crops profile `prefix_of` crops profile') /\
  (forall st clock req,
     file_audio req = None ->
     farmers st !! requestFarmer req = None ->
     farmers (step st (PostQuery clock req)) !! requestFarmer req =
     Some {| fp_id := requestFarmer req;
             fp_location := requestLocation req;
             crops := if String.eqb (requestCrop req) "" then [] else [requestCrop req];
             queryHistory := [now clock];
             joinDate := now clock |}).
Proof.
  split.
  - intros st more. revert st.
    induction more as [|op more IH]; intros st farmerId profile H.
    + exists profile. repeat split; [exact H | reflexivity | reflexivity].
    + cbn [fold_left].
      destruct (step_profile_kept st op farmerId profile H)
        as (p1 & H1 & Hid1 & Hloc1 & Hjoin1 & Hh1 & Hc1).
      destruct (IH (step st op) farmerId p1 H1)
        as (p2 & H2 & Hid2 & Hloc2 & Hjoin2 & Hh2 & Hc2).
      exists p2. repeat split; try congruence; etrans; eassumption.
  - intros st clock req Haudio Hnew.
    destruct (query_step st clock req Haudio) as (-> & _).
    destruct (recordQuery_profile st clock (requestQuery req) (requestAdvice st clock req))
      as (profile' & -> & Hhist & Hrest).
    cbn [requestQuery q_farmerId q_location q_crop] in *.
    rewrite Hnew in Hhist, Hrest. destruct Hrest as (Hid & Hloc & Hjoin & Hcrops).
    rewrite lookup_insert_eq. f_equal. destruct profile'. cbn in *. congruence.
Qed.

(** X9 on farmer f1: the profile made by a question from Kerala keeps that
    location after a second question. *)
Lemma profiles_are_kept_witness :
  exists profile',
    farmers (fold_left step [PostQuery sampleClock riceRequest]
                       (run [PostQuery sampleClock riceRequest])) !! "f1"
      = Some profile' /\
    fp_location profile' = "Kerala".
Proof.
  destruct (proj1 profiles_are_created_once_and_kept
              (run [PostQuery sampleClock riceRequest])
              [PostQuery sampleClock riceRequest] "f1"
              {| fp_id := "f1"; fp_location := "Kerala"; crops := ["rice"];
                 queryHistory := [1700000000000]; joinDate := 1700000000000 |})
    as (profile' & H & _ & Hloc & _).
  - vm_compute. reflexivity.
  - exists profile'. split; [exact H | exact Hloc].
Defined.

(** ** Totals and views *)

Lemma step_farmer_ids st op :
  dom (farmers st) = list_to_set (map rec_farmerId (queries st)) ->
  dom (farmers (step st op)) =@{gset string}
    list_to_set (map rec_farmerId (queries (step st op))).
Proof.
  intros H. destruct op as [clock req | clock body].
  - destruct (file_audio req) as [audioPath|] eqn:Haudio.
    { rewrite audio_step by (rewrite Haudio; eauto). exact H. }
    destruct (query_step st clock req Haudio) as (-> & -> & _).
    destruct (recordQuery_profile st clock (requestQuery req) (requestAdvice st clock req))
      as (profile' & -> & _).
    rewrite dom_insert_L, map_app, list_to_set_app_L, H. cbn [map list_to_set].
    rewrite (right_id_L ∅ (∪)). apply (comm_L (∪)).
  - destruct (feedback_step st clock body) as (-> & _ & _ & _ & Hq & _).
    assert (E : forall log, map rec_farmerId log = map rec_farmerId (map withoutFeedback log))
      by (intros log; now rewrite map_map).
    now rewrite (E (queries (step _ _))), Hq, <- E.
Qed.

Lemma run_farmer_ids ops :
  dom (farmers (run ops)) =@{gset string}
    list_to_set (map rec_farmerId (queries (run ops))).
Proof.
  induction ops as [|op ops IH] using rev_ind.
  - cbn. apply dom_empty_L.
  - rewrite run_snoc. now apply step_farmer_ids.
Qed.

Lemma run_query_count ops :
  length (queries (run ops)) = length (List.filter storedQuery ops).
Proof.
  induction ops as [|op ops IH] using rev_ind; [reflexivity|].
  rewrite run_snoc, List.filter_app, length_app, <- IH. cbn [List.filter].
  destruct op as [clock req | clock body]; cbn [storedQuery].
  - destruct (file_audio req) as [audioPath|] eqn:Haudio.
    + rewrite audio_step by (rewrite Haudio; eauto). cbn. lia.
    + destruct (query_step (run ops) clock req Haudio) as (_ & -> & _).
      now rewrite length_app.
  - destruct (feedback_step (run ops) clock body) as (_ & _ & _ & -> & _). cbn. lia.
Qed.

(** X11: after any list of requests, the analytics report as total queries
    the number of query requests that carried no audio, and as total farmers
    the number of distinct farmer ids in the query log; and there are never
    more escalations than queries. *)
Theorem analytics_totals_count_stored_queries (ops : list Operation) :
  exists a,
    analyticsRoute (run ops) = Json a /\
    totalQueries a = length (List.filter storedQuery ops) /\
    totalFarmers a =
      size (list_to_set (C := gset string) (map rec_farmerId (queries (run ops)))) /\
    (length (escalations (run ops)) <= totalQueries a)%nat.
Proof.
  eexists. split; [reflexivity|]. cbn [totalQueries totalFarmers].
  split; [apply run_query_count|]. split.
  - rewrite <- run_farmer_ids. symmetry. apply size_dom.
  - destruct (run_invariants ops emptyStore) as [_ H]; [constructor | cbn; lia |].
    exact H.
Qed.




(** ** Feedback on a stored query *)

Lemma findIndex_first {A : Type} (p : A -> bool) (l : list A) : forall i x,
  l !! i = Some x -> p x = true ->
  (forall j y, (j < i)%nat -> l !! j = Some y -> p y = false) ->
  findIndex p l = Some i.
Proof.
  induction l as [|a l IH]; intros i x Hi Hx Hfirst; [discriminate|].
  cbn [findIndex]. destruct i as [|i].
  - injection Hi as ->. now rewrite Hx.
  - rewrite (Hfirst 0%nat a) by (cbn; first [lia | reflexivity]).
    rewrite (IH i x Hi Hx); [reflexivity|].
    intros j y Hj Hy. apply (Hfirst (S j) y); [lia | exact Hy].
Qed.

(** X13: feedback whose query id is the id of a record goes to the first
    record of the log with that id: that record gets the entry as its
    feedback, in place of any earlier one, every other record stays as it
    was, and the entry is appended to the feedback log. *)
Theorem feedback_attaches_to_first_record st clock body i q :
  queries st !! i = Some q ->
  strictEq (rec_id q) (body_queryId body) = true ->
  (forall j earlier,
     (j < i)%nat -> queries st !! j = Some earlier ->
     strictEq (rec_id earlier) (body_queryId body) = false) ->
  queries (snd (feedbackRoute st clock body)) !! i =
    Some (setFeedback {| fb_queryId := body_queryId body; rating := body_rating body;
                         comments := body_comments body;
                         isHelpful := body_isHelpful body;
                         fb_timestamp := now clock |} q) /\
  (forall j, j <> i ->
     queries (snd (feedbackRoute st clock body)) !! j = queries st !! j) /\
  length (queries (snd (feedbackRoute st clock body))) = length (queries st) /\
  feedback (snd (feedbackRoute st clock body)) =
    feedback st ++ [ {| fb_queryId := body_queryId body; rating := body_rating body;
                        comments := body_comments body;
                        isHelpful := body_isHelpful body;
                        fb_timestamp := now clock |} ] /\
  farmers (snd (feedbackRoute st clock body)) = farmers st /\
  escalations (snd (feedbackRoute st clock body)) = escalations st.
Proof.
  intros Hi Hq Hfirst. unfold feedbackRoute.
  cbn [snd queries feedback farmers escalations].
  rewrite (findIndex_first _ _ i q Hi Hq Hfirst).
  repeat split.
  - rewrite list_lookup_alter, decide_True by reflexivity. now rewrite Hi.
  - intros j Hj. now apply list_lookup_alter_ne.
  - apply length_alter.
Qed.

(** X13 on the record of the question about tomato. *)
Lemma feedback_attaches_witness :
  (rec_feedback <$>
     queries (snd (feedbackRoute (run [PostQuery sampleClock tomatoRequest])
                                 sampleClock knownFeedback)) !! 0%nat) =
  Some (Some {| fb_queryId := VNum 1700000000000; rating := VNum 4;
                comments := VStr "helped"; isHelpful := VBool true;
                fb_timestamp := 1700000000000 |}).
Proof.
  destruct (feedback_attaches_to_first_record
              (run [PostQuery sampleClock tomatoRequest]) sampleClock knownFeedback 0%nat
              (requestRecord emptyStore sampleClock tomatoRequest))
    as (H & _).
  - reflexivity.
  - reflexivity.
  - intros j earlier Hj. lia.
  - rewrite H. reflexivity.
Defined.

(** ** The advice context *)

Lemma monsoon_match {A : Type} (s : string) (a b : A) :
  match JStr s with
  | JStr "monsoon" => a
  | _ => b
  end = if String.eqb s "monsoon" then a else b.
Proof.
  destruct (String.eqb_spec s "monsoon") as [-> | Hne]; [reflexivity|].
  repeat literal_step. congruence.
Qed.

(** The context that a successful [generateAdvice] echoes. *)
Lemma generateAdvice_context st clock query input farmerHistory advice :
  generateAdvice st clock query input farmerHistory = AdviceOk advice ->
  exists calendar,
    getCropCalendar (in_crop input) (in_location input) = Ok calendar /\
    cropCalendar (context advice) = calendar /\
    previousQueries (context advice) = lastFive farmerHistory /\
    ctx_season (context advice) =
      por (JStr (in_season input)) (JStr (getCurrentSeason clock)) /\
    ctx_crop (context advice) = por (JStr (in_crop input)) (nlpCrop (in_nlp input)) /\
    localWeather (context advice) = getLocalWeather (in_location input) /\
    recommendations advice = getContextualRecommendations (context advice).
Proof.
  unfold generateAdvice.
  destruct (generateAdviceBody _ _ _ _ _) as [a|] eqn:E; [|discriminate].
  intros [= ->]. unfold generateAdviceBody in E.
  destruct (getCropCalendar _ _) as [calendar|]; [|discriminate].
  cbv beta iota zeta delta [mbind outcome_bind] in E.
  match type of E with
  | match ?m with Ok _ => _ | Throw _ => _ end = _ =>
      destruct m as [[text c]|]; [|discriminate]
  end.
  injection E as <-. exists calendar. repeat split.
Qed.

Lemma historyFrom_lookup farmerId : forall log before,
  map (fun i => (before ++ log) !! i) (historyFrom (length before) log farmerId) =
  map Some (List.filter (fun q => String.eqb (q_farmerId (rec_query q)) farmerId) log).
Proof.
  induction log as [|q log IH]; intros before; [reflexivity|].
  cbn [historyFrom List.filter].
  specialize (IH (before ++ [q])).
  rewrite <- app_assoc in IH. cbn [app] in IH.
  replace (length (before ++ [q])) with (S (length before)) in IH
    by (rewrite length_app; cbn; lia).
  destruct (String.eqb (q_farmerId (rec_query q)) farmerId); cbn [map];
    [|exact IH].
  rewrite IH. f_equal. now apply list_lookup_middle.
Qed.

Lemma lastFive_map {A B : Type} (f : A -> B) (l : list A) :
  lastFive (map f l) = map f (lastFive l).
Proof. unfold lastFive. rewrite length_map. apply skipn_map. Qed.

(** X14: the advice context of a request refers to records that are in the
    query log before the request is stored: the last five records of the
    same farmer, oldest first, or all of them when there are fewer. *)
Theorem advice_context_holds_last_five_queries st clock req advice :
  requestAdvice st clock req = AdviceOk advice ->
  map (fun i => queries st !! i) (previousQueries (context advice)) =
    map Some
        (lastFive (List.filter
                     (fun q => String.eqb (q_farmerId (rec_query q)) (requestFarmer req))
                     (queries st))) /\
  (length (previousQueries (context advice)) <= 5)%nat.
Proof.
  intros H. unfold requestAdvice in H.
  destruct (generateAdvice_context _ _ _ _ _ _ H) as (calendar & _ & _ & -> & _).
  split.
  - rewrite <- (lastFive_map (fun i => queries st !! i)), <- (lastFive_map Some).
    f_equal. apply (historyFrom_lookup _ _ []).
  - unfold lastFive. rewrite length_drop. lia.
Qed.

(** X14 on a second question of farmer f1, whose context refers to the
    first. *)
Lemma advice_context_witness :
  exists advice,
    requestAdvice (run [PostQuery sampleClock riceRequest]) sampleClock riceRequest
      = AdviceOk advice /\
    previousQueries (context advice) = [0%nat] /\
    map (fun i => queries (run [PostQuery sampleClock riceRequest]) !! i)
        (previousQueries (context advice)) =
    map Some
        (lastFive (List.filter
                     (fun q => String.eqb (q_farmerId (rec_query q))
                                          (requestFarmer riceRequest))
                     (queries (run [PostQuery sampleClock riceRequest])))).
Proof.
  eexists. split; [vm_compute; reflexivity|]. split; [reflexivity|].
  refine (proj1 (advice_context_holds_last_five_queries
                   (run [PostQuery sampleClock riceRequest]) sampleClock riceRequest _ _)).
  vm_compute. reflexivity.
Defined.

(** X15: the recommendations of a successful advice are, in this order, the
    monsoon reminder when the season of the request, or without one the
    default season, is "monsoon", and the next activity of the crop calendar
    when the crop named in the request is a crop of the knowledge base; a
    crop that is only found in the text gets no calendar entry, and the rain
    warning is never given. *)
Theorem recommendations_follow_season_and_crop
    st clock query input farmerHistory advice :
  generateAdvice st clock query input farmerHistory = AdviceOk advice ->
  recommendations advice =
    (if String.eqb (contextSeason clock (in_season input)) "monsoon"
     then ["🌧 Monsoon season - increase surveillance for disease outbreaks"]
     else []) ++
    (match ownProperty cropDatabase (in_crop input) with
     | Some _ => ["📅 Upcoming: Apply fertilizer in 2 weeks"]
     | None => []
     end).
Proof.
  intros H.
  destruct (generateAdvice_context _ _ _ _ _ _ H)
    as (calendar & Hcal & Hc & _ & Hseason & _ & Hweather & ->).
  unfold getContextualRecommendations. rewrite Hc, Hseason, Hweather.
  cbn [getLocalWeather condition]. change (String.eqb "partly cloudy" "rainy") with false.
  cbv iota. cbn [app].
  assert (Hs : por (JStr (in_season input)) (JStr (getCurrentSeason clock)) =
               JStr (contextSeason clock (in_season input))).
  { unfold por, truthy, contextSeason.
    now destruct (String.eqb (in_season input) ""). }
  rewrite Hs, monsoon_match.
  unfold getCropCalendar, getProp in Hcal.
  destruct (ownProperty cropDatabase (in_crop input)) as [cropInfo|].
  - injection Hcal as <-. cbn [nextActivity].
    now destruct (String.eqb (contextSeason clock (in_season input)) "monsoon").
  - destruct (objectPrototype (in_crop input)); [discriminate|].
    injection Hcal as <-.
    destruct (String.eqb (contextSeason clock (in_season input)) "monsoon");
      now rewrite ?app_nil_r.
Qed.

(** X15 on the photo blight.jpg asked about tomato in November. *)
Lemma recommendations_witness :
  exists advice,
    generateAdvice emptyStore sampleClock tomatoBlightQuery tomatoBlightInput []
      = AdviceOk advice /\
    recommendations advice = ["📅 Upcoming: Apply fertilizer in 2 weeks"].
Proof.
  eexists. split; [vm_compute; reflexivity|].
  refine (recommendations_follow_season_and_crop emptyStore sampleClock
            tomatoBlightQuery tomatoBlightInput [] _ _).
  vm_compute. reflexivity.
Defined.

(** ** When advice generation fails *)

Lemma cropWords_not_inherited text :
  objectPrototype (toText (scanWords cropWords text)) = None.
Proof.
  pose proof (scanWords_lastOccurring cropWords text) as H.
  destruct (scanWords cropWords text) as [| |word]; cbn [lastOccurring toText] in *;
    [contradiction | reflexivity |].
  destruct H as (before & after & Hwords & _).
  assert (Hin : In word cropWords) by (rewrite Hwords; apply in_elt).
  cbn in Hin.
  destruct Hin as [<-|[<-|[<-|[<-|[<-|[<-|[]]]]]]]; reflexivity.
Qed.

Lemma requestContextCrop_not_inherited req :
  objectPrototype (requestCrop req) = None ->
  objectPrototype (toText (por (JStr (requestCrop req)) (nlpCrop (requestNlp req))))
  = None.
Proof.
  intros H. unfold por, truthy.
  destruct (String.eqb (requestCrop req) ""); cbn [negb toText]; [|exact H].
  destruct (requestNlp_cases req) as [[_ ->] | [_ (data & -> & _ & text & Hcrop)]];
    cbn [nlpCrop toText]; [reflexivity|].
  rewrite Hcrop. apply cropWords_not_inherited.
Qed.

Lemma getProp_not_inherited {A : Type} (obj : list (string * A)) (key : string) :
  objectPrototype key = None ->
  getProp obj key = match ownProperty obj key with
                    | Some a => Own a
                    | None => Absent
                    end.
Proof. intros H. unfold getProp. now rewrite H. Qed.

Lemma generateDiseaseAdvice_ok image context :
  objectPrototype (toText (ctx_crop context)) = None ->
  exists advice, generateDiseaseAdvice image context = Ok advice.
Proof.
  intros H. unfold generateDiseaseAdvice. rewrite (getProp_not_inherited _ _ H).
  destruct (ownProperty cropDatabase _); eauto.
Qed.

Lemma schemes_inherited key :
  (exists text, getProp schemes key = Inherited text) <-> objectPrototype key <> None.
Proof.
  unfold getProp, schemes. cbn [ownProperty].
  destruct (String.eqb_spec "kerala" key) as [<- | _].
  - split; [intros [text H]; discriminate | intros H; now destruct H].
  - destruct (objectPrototype key) as [text|]; split; try congruence; eauto.
    intros [text H]. discriminate.
Qed.

Lemma generateIntentBasedAdvice_throws data context :
  objectPrototype (toText (ctx_crop context)) = None ->
  (exists message, generateIntentBasedAdvice data context = Throw message) <->
  intent data = scheme_info /\
  objectPrototype (schemeKey (ctx_location context)) <> None.
Proof.
  intros Hcrop. unfold generateIntentBasedAdvice.
  rewrite (getProp_not_inherited cropDatabase _ Hcrop).
  fold (schemeKey (ctx_location context)).
  destruct (intent data);
    try (split; [intros [message H]; discriminate | intros [H _]; discriminate]).
  - destruct (ownProperty cropDatabase _);
      (split; [intros [message H]; discriminate | intros [H _]; discriminate]).
  - rewrite <- schemes_inherited.
    destruct (getProp schemes (schemeKey (ctx_location context))) as [l|text|];
      split; try (intros [message H]; discriminate); eauto.
    + intros [_ [text H]]. discriminate.
    + intros [_ [text H]]. discriminate.
Qed.

(** [generateAdvice] by its two steps: the crop calendar, then the branch. *)
Lemma generateAdviceBody_branches st clock query input farmerHistory :
  generateAdviceBody st clock query input farmerHistory =
  match getCropCalendar (in_crop input) (in_location input) with
  | Ok calendar =>
      let aiContext := adviceContext st clock input farmerHistory calendar in
      match branchAdvice input aiContext with
      | Ok advice =>
          Ok {| mainAdvice := advice;
                recommendations := getContextualRecommendations aiContext;
                confidence := branchConfidence input;
                shouldEscalate := lt (branchConfidence input) 0.6;
                context := aiContext |}
      | Throw message => Throw message
      end
  | Throw message => Throw message
  end.
Proof.
  unfold generateAdviceBody, branchAdvice, branchConfidence, textAdvice, textConfidence.
  destruct (getCropCalendar _ _) as [calendar|]; [|reflexivity].
  cbv beta iota zeta delta [mbind outcome_bind]. fold (adviceContext st clock input farmerHistory calendar).
  destruct (in_imageAnalysis input) as [image|];
    [destruct (String.eqb (img_disease image) "Unknown condition")|];
    try (destruct (in_nlp input) as [[data|]|];
         [destruct (generateIntentBasedAdvice _ _) | |]; reflexivity).
  destruct (generateDiseaseAdvice _ _); reflexivity.
Qed.

Lemma textAdvice_throws req aiContext :
  objectPrototype (toText (ctx_crop aiContext)) = None ->
  (exists message, textAdvice (requestNlp req) aiContext = Throw message) <->
  (exists data, requestNlp req = Some (NluOk data) /\ intent data = scheme_info) /\
  objectPrototype (schemeKey (ctx_location aiContext)) <> None.
Proof.
  intros Hctx. unfold textAdvice. destruct (requestNlp req) as [[data|e]|].
  - rewrite (generateIntentBasedAdvice_throws data aiContext Hctx). split.
    + intros [Hi Hk]. eauto.
    + intros [(data' & [= <-] & Hi) Hk]. auto.
  - split; [intros [message H]; discriminate | intros [(data & H & _) _]; discriminate].
  - split; [intros [message H]; discriminate | intros [(data & H & _) _]; discriminate].
Qed.

(** X16: advice generation for a request fails exactly when the crop of the
    request is a key inherited from [Object.prototype], or when the request
    shows no image finding, its text is classified as scheme_info and the
    lower-cased location of the context is such a key; the failure is always
    reported as "Could not generate advice". *)
Theorem advice_fails_exactly_on_inherited_keys st clock req :
  ((exists error, requestAdvice st clock req = AdviceError error) <->
   objectPrototype (requestCrop req) <> None \/
   (noFinding req /\
    (exists data, requestNlp req = Some (NluOk data) /\ intent data = scheme_info) /\
    objectPrototype (schemeKey (contextLocation st req)) <> None)) /\
  (forall error, requestAdvice st clock req = AdviceError error ->
                 error = "Could not generate advice").
Proof.
  split.
  2: { unfold requestAdvice, generateAdvice. intros error.
       destruct (generateAdviceBody _ _ _ _ _); congruence. }
  unfold requestAdvice, generateAdvice. rewrite generateAdviceBody_branches.
  cbn [in_crop in_location requestInput].
  destruct (getCropCalendar_throws (requestCrop req) (requestLocation req))
    as [(calendar & -> & Hcrop & _) | (message & text & -> & Hcrop)].
  2: { split; [|eauto]. intros _. left. congruence. }
  cbv zeta.
  set (aiContext := adviceContext st clock (requestInput req) _ calendar).
  pose proof (requestContextCrop_not_inherited req Hcrop) as Hctx.
  pose proof (textAdvice_throws req aiContext Hctx) as Htext.
  change (ctx_location aiContext) with (contextLocation st req) in Htext.
  assert (Hfail : forall result : outcome string,
            (exists error,
               match
                 match result with
                 | Ok advice =>
                     Ok {| mainAdvice := advice;
                           recommendations := getContextualRecommendations aiContext;
                           confidence := branchConfidence (requestInput req);
                           shouldEscalate := lt (branchConfidence (requestInput req)) 0.6;
                           context := aiContext |}
                 | Throw message => Throw message
                 end
               with
               | Ok advice => AdviceOk advice
               | Throw _ => AdviceError "Could not generate advice"
               end = AdviceError error) <->
            exists message, result = Throw message).
  { intros [advice|message]; split; intros [x H]; try discriminate; eauto. }
  rewrite Hfail. unfold branchAdvice, noFinding.
  cbn [in_imageAnalysis in_nlp requestInput].
  destruct (requestImage req) as [image|].
  - destruct (String.eqb_spec (img_disease image) "Unknown condition") as [Hd | Hd].
    + rewrite Htext. split; [intros H; right; tauto | intros [H | H]; tauto].
    + destruct (generateDiseaseAdvice_ok image aiContext Hctx) as [advice ->].
      split; [intros [error H]; discriminate | intros [H | H]; tauto].
  - rewrite Htext. split; [intros H; right; tauto | intros [H | H]; tauto].
Qed.

(** ** Treatments and schemes *)

Lemma prefix_self s : String.prefix s s = true.
Proof.
  induction s as [|c s IH]; [reflexivity|]. cbn.
  destruct (ascii_dec c c); [exact IH | contradiction].
Qed.

Lemma includes_self s : includes s s = true.
Proof. rewrite includes_unfold. now rewrite prefix_self. Qed.

Lemma treatmentFor_listed crop cropInfo disease :
  ownProperty cropDatabase crop = Some cropInfo ->
  objectPrototype (toLowerCase disease) = None ->
  treatmentFor (pesticides cropInfo) disease =
    match ownProperty (pesticides cropInfo) (toLowerCase disease) with
    | Some treatment => treatment
    | None => firstListed (pesticides cropInfo)
    end /\
  In (crop, firstListed (pesticides cropInfo)) firstTreatments.
Proof.
  intros Hcrop Hkey. unfold treatmentFor. rewrite (getProp_not_inherited _ _ Hkey).
  unfold cropDatabase in Hcrop. cbn [ownProperty] in Hcrop.
  destruct (String.eqb_spec "banana" crop) as [<-|_];
    [|destruct (String.eqb_spec "rice" crop) as [<-|_];
      [|destruct (String.eqb_spec "tomato" crop) as [<-|_]; [|discriminate]]];
    injection Hcrop as <-; cbn [pesticides ownProperty firstListed];
    (split; [|cbn; tauto]);
    repeat match goal with
           | |- context [String.eqb ?k (toLowerCase disease)] =>
               destruct (String.eqb k (toLowerCase disease))
           end; reflexivity.
Qed.

(** X17: for a crop of the knowledge base and a disease label written in
    ASCII, the disease advice recommends the pesticide listed under the
    lower-cased disease name, and for a disease that the crop's entry does
    not list it falls back to the first pesticide listed for the crop (copper
    oxychloride or mancozeb for banana, tricyclazole or carbendazim for rice,
    metalaxyl with mancozeb for tomato), whatever the disease is. *)
Theorem unlisted_disease_gets_first_treatment image context cropInfo :
  isAscii (img_disease image) = true ->
  ownProperty cropDatabase (toText (ctx_crop context)) = Some cropInfo ->
  objectPrototype (toLowerCase (img_disease image)) = None ->
  exists advice,
    generateDiseaseAdvice image context = Ok advice /\
    includes advice
      ("Recommended treatment: " +:+
       match ownProperty (pesticides cropInfo) (toLowerCase (img_disease image)) with
       | Some treatment => treatment
       | None => firstListed (pesticides cropInfo)
       end +:+ ". ") = true /\
    In (toText (ctx_crop context), firstListed (pesticides cropInfo)) firstTreatments.
Proof.
  intros _ Hcrop Hkey.
  destruct (treatmentFor_listed _ _ _ Hcrop Hkey) as [Ht Hfirst].
  unfold generateDiseaseAdvice.
  rewrite (getProp_not_inherited cropDatabase _ (cropDatabase_keys_own _ _ Hcrop)), Hcrop.
  rewrite Ht. eexists. split; [reflexivity|]. split; [|exact Hfirst].
  cbv zeta.
  destruct (truthy (ctx_season context)); [apply includes_append_l|];
    do 2 apply includes_append_l; apply includes_append_r; apply includes_self.
Qed.

(** X17 on late blight found on banana, which gets the leaf spot pesticide. *)
Lemma unlisted_disease_witness :
  exists advice,
    generateDiseaseAdvice bananaBlight bananaContext = Ok advice /\
    includes advice
      "Recommended treatment: Copper oxychloride 0.3% or Mancozeb 0.2%. " = true.
Proof.
  destruct (unlisted_disease_gets_first_treatment bananaBlight bananaContext
              {| commonDiseases := ["leaf spot"; "panama disease"; "black sigatoka"];
                 pests := ["aphids"; "nematodes"; "thrips"];
                 seasons := {| plant := "June-July"; harvest := "April-May" |};
                 pesticides :=
                   [ ("leaf spot", "Copper oxychloride 0.3% or Mancozeb 0.2%");
                     ("black sigatoka", "Propiconazole 0.1%") ] |})
    as (advice & H & Hin & _).
  - reflexivity.
  - reflexivity.
  - reflexivity.
  - exists advice. split; [exact H | exact Hin].
Defined.

(** X18: a question about schemes is answered from the lower-cased location
    of the context, here a location written in ASCII or none at all: when
    that is "kerala" the advice lists the three schemes of Kerala, and for
    any other location that is not an inherited key the list is empty. *)
Theorem scheme_advice_lists_kerala_only data context :
  intent data = scheme_info ->
  isAsciiValue (ctx_location context) = true ->
  (schemeKey (ctx_location context) = "kerala" ->
   generateIntentBasedAdvice data context =
   Ok "Available schemes: Krishi Bhavan Support, Organic Farming Subsidy, Crop Insurance. Contact your local Krishi Bhavan for applications.") /\
  (schemeKey (ctx_location context) <> "kerala" ->
   objectPrototype (schemeKey (ctx_location context)) = None ->
   generateIntentBasedAdvice data context =
   Ok "Available schemes: . Contact your local Krishi Bhavan for applications.").
Proof.
  intros Hintent _. unfold generateIntentBasedAdvice. rewrite Hintent.
  fold (schemeKey (ctx_location context)). split.
  - intros ->. reflexivity.
  - intros Hne Hkey. rewrite (getProp_not_inherited _ _ Hkey).
    unfold schemes. cbn [ownProperty].
    destruct (String.eqb_spec "kerala" (schemeKey (ctx_location context)));
      [congruence | reflexivity].
Qed.

(** X18 on a question from "Kerala", written with a capital. *)
Lemma scheme_advice_witness :
  generateIntentBasedAdvice schemeQuestion bananaContext =
  Ok "Available schemes: Krishi Bhavan Support, Organic Farming Subsidy, Crop Insurance. Contact your local Krishi Bhavan for applications.".
Proof.
  apply (proj1 (scheme_advice_lists_kerala_only schemeQuestion bananaContext
                  eq_refl eq_refl)).
  reflexivity.
Defined.

(** ** Feedback held by the records *)

Lemma findIndex_found {A : Type} (p : A -> bool) (l : list A) : forall i,
  findIndex p l = Some i -> exists x, l !! i = Some x /\ p x = true.
Proof.
  induction l as [|a l IH]; intros i H; [discriminate|].
  cbn [findIndex] in H. destruct (p a) eqn:E.
  - injection H as <-. eauto.
  - destruct (findIndex p l) as [k|]; [|discriminate].
    injection H as <-. destruct (IH k eq_refl) as (x & Hx & Hp). eauto.
Qed.

Lemma step_feedback_held st op :
  Forall (fun q => attachedFeedback (feedback st) q) (queries st) ->
  Forall (fun q => attachedFeedback (feedback (step st op)) q) (queries (step st op)).
Proof.
  intros H. destruct op as [clock req | clock body].
  - destruct (file_audio req) as [audioPath|] eqn:Haudio.
    { rewrite audio_step by (rewrite Haudio; eauto). exact H. }
    destruct (query_step st clock req Haudio) as (_ & -> & -> & _).
    apply Forall_app. split; [exact H|]. repeat constructor.
  - cbn [step]. unfold feedbackRoute. cbn [snd queries feedback].
    set (entry := {| fb_queryId := body_queryId body; rating := _; comments := _;
                     isHelpful := _; fb_timestamp := _ |}).
    assert (Hold : Forall (fun q => attachedFeedback (feedback st ++ [entry]) q)
                          (queries st)).
    { eapply Forall_impl; [exact H|]. intros q. unfold attachedFeedback.
      destruct (rec_feedback q); [|auto]. intros [Hid Hin]. split; [exact Hid|].
      apply elem_of_app. now left. }
    destruct (findIndex _ _) as [i|] eqn:E; [|exact Hold].
    apply Forall_alter; [exact Hold|]. intros q Hq _.
    destruct (findIndex_found _ _ _ E) as (x & Hx & Hp).
    assert (x = q) by congruence. subst x.
    unfold attachedFeedback. cbn [setFeedback rec_feedback rec_id fb_queryId entry].
    split; [exact Hp|]. apply elem_of_app. right. apply list_elem_of_singleton. reflexivity.
Qed.

(** X20: after any list of requests, the feedback that a query record holds
    was submitted for the id of that record and is an entry of the feedback
    log. *)
Theorem attached_feedback_matches_its_record (ops : list Operation) :
  Forall (fun q => attachedFeedback (feedback (run ops)) q) (queries (run ops)).
Proof.
  induction ops as [|op ops IH] using rev_ind; [constructor|].
  rewrite run_snoc. now apply step_feedback_held.
Qed.
